(** * MyPage: candle indicators, summary request and page rendering

    A shallow embedding of [main.py] and [src/resistance_support.py].

    The two scripts work on pandas objects and talk to two remote
    services.  The embedding keeps the layers of the program apart:

    - [F]        float64 cells, as exact rationals extended with the three
                 special values of IEEE arithmetic;
    - [Py]       exceptions and decoded JSON bodies;
    - [Pandas]   the Series and DataFrame operations the scripts call;
    - [Runtime]  the outside world (clock, environment variables, the two
                 services, the disk) and the monad that threads it through
                 the effectful code;
    - [Main] and [ResistanceSupport], one module per source file;
    - [Spec]     what the indicators are said to be, for comparison.

    Rounding and the sign of zero are outside the model: a finite cell is a
    rational number and arithmetic on finite cells is exact.  So is the
    overflow of a sum or a difference beyond the largest float64, and the
    underflow of an average to zero: the theorems whose conclusion needs
    such a value to stay finite, or to stay away from zero, take closes in
    the range of [Props.price] with steps in the range of [Props.ticked],
    and show that the sums, differences and averages the code forms stay
    within [F.max_float] and, unless they are zero, above [F.min_float]. *)

From Stdlib Require Import Strings.String Strings.Ascii.
From Stdlib Require Import QArith Qabs Qcanon ZArith Bool Arith Lia Lqa List.
From Stdlib Require Import Sorting.Permutation Sorting.Sorted.
Import ListNotations.

Set Implicit Arguments.

(* ================================================================= *)
(** ** float64 cells *)

Module F.

(** A float64 value: not-a-number, the two infinities, or a finite
    number.  Finite numbers are canonical rationals, so Leibniz equality
    on [float] is equality of values. *)
Inductive float : Type :=
| NaN
| PInf
| NInf
| Fin (q : Qc).

Definition of_Z (z : Z) : float := Fin (Q2Qc (inject_Z z)).
Definition of_nat (n : nat) : float := of_Z (Z.of_nat n).

Definition zero : float := Fin 0%Qc.
Definition one : float := Fin 1%Qc.

(** [x == x] in Python: false exactly on NaN. *)
Definition is_obs (x : float) : bool :=
  match x with NaN => false | _ => true end.

Definition is_inf (x : float) : bool :=
  match x with PInf | NInf => true | _ => false end.

Definition is_finite (x : float) : bool :=
  match x with Fin _ => true | _ => false end.

Definition opp (x : float) : float :=
  match x with
  | NaN => NaN
  | PInf => NInf
  | NInf => PInf
  | Fin a => Fin (- a)%Qc
  end.

Definition add (x y : float) : float :=
  match x, y with
  | NaN, _ | _, NaN => NaN
  | PInf, NInf | NInf, PInf => NaN
  | PInf, _ | _, PInf => PInf
  | NInf, _ | _, NInf => NInf
  | Fin a, Fin b => Fin (a + b)%Qc
  end.

Definition sub (x y : float) : float := add x (opp y).

(** Sign of a rational, as [comparison] against zero. *)
Definition sgn (a : Qc) : comparison := (a ?= 0)%Qc.

Definition signed_inf (c : comparison) : float :=
  match c with Gt => PInf | Lt => NInf | Eq => NaN end.

Definition flip (c : comparison) : comparison := CompOpp c.

Definition mul (x y : float) : float :=
  match x, y with
  | NaN, _ | _, NaN => NaN
  | PInf, PInf | NInf, NInf => PInf
  | PInf, NInf | NInf, PInf => NInf
  | PInf, Fin b | Fin b, PInf => signed_inf (sgn b)
  | NInf, Fin b | Fin b, NInf => signed_inf (flip (sgn b))
  | Fin a, Fin b => Fin (a * b)%Qc
  end.

(** numpy division: a finite number over zero is an infinity of the sign
    of the numerator, zero over zero is NaN, and nothing is raised. *)
Definition div (x y : float) : float :=
  match x, y with
  | NaN, _ | _, NaN => NaN
  | (PInf | NInf), (PInf | NInf) => NaN
  | PInf, Fin b => match sgn b with Lt => NInf | _ => PInf end
  | NInf, Fin b => match sgn b with Lt => PInf | _ => NInf end
  | Fin _, (PInf | NInf) => zero
  | Fin a, Fin b =>
      match sgn b with
      | Eq => signed_inf (sgn a)
      | _ => Fin (a / b)%Qc
      end
  end.

(** [x < y]; every comparison with NaN is false. *)
Definition ltb (x y : float) : bool :=
  match x, y with
  | NaN, _ | _, NaN => false
  | _, NInf => false
  | NInf, _ => true
  | PInf, _ => false
  | _, PInf => true
  | Fin a, Fin b => match (a ?= b)%Qc with Lt => true | _ => false end
  end.

Definition gtb (x y : float) : bool := ltb y x.

(** [x != y]: true as soon as one side is NaN. *)
Definition neqb (x y : float) : bool :=
  match x, y with
  | NaN, _ | _, NaN => true
  | PInf, PInf | NInf, NInf => false
  | Fin a, Fin b => match (a ?= b)%Qc with Eq => false | _ => true end
  | _, _ => true
  end.

(** Decidable equality of cells, for evaluation on concrete series. *)
Definition eqb (x y : float) : bool :=
  match x, y with
  | NaN, NaN | PInf, PInf | NInf, NInf => true
  | Fin a, Fin b => Qeq_bool a b
  | _, _ => false
  end.

Fixpoint sum (xs : list float) : float :=
  match xs with
  | [] => zero
  | x :: xs' => add x (sum xs')
  end.


End F.

Abbreviation float := F.float.
Abbreviation NaN := F.NaN.
Abbreviation PInf := F.PInf.
Abbreviation NInf := F.NInf.
Abbreviation Fin := F.Fin.

(* ================================================================= *)
(** ** Exceptions and decoded values *)

Module Py.

Inductive exn : Type :=
| KeyError (key : string)
| DataError             (* an aggregation over a column that is not numeric *)
| ValueError
| IndexError
| JSONDecodeError
| OutOfBoundsDatetime
| ConnectionError
| OpenAIError
| APIError
| OSError.

(** Outcome of a computation that may raise. *)
Definition result (A : Type) : Type := (exn + A)%type.

Definition ok {A} (a : A) : result A := inr a.
Definition raise_ {A} (e : exn) : result A := inl e.

Definition rbind {A B} (m : result A) (k : A -> result B) : result B :=
  match m with
  | inl e => inl e
  | inr a => k a
  end.

(** A decoded response body, in the two shapes the exchange sends: an
    array of arrays of numbers, or an object holding a message.  A body of
    another shape, or an array with a cell that is not a number, is not
    modelled. *)
Inductive Body : Type :=
| Rows (rows : list (list Qc))
| Message (text : string).

End Py.

(* ================================================================= *)
(** ** The pandas operations used by the scripts *)

Module Pandas.

(** A numeric Series, by position.  Every Series the scripts combine
    comes from the same frame and carries the same index, so alignment
    on index labels is the identity and only positions matter. *)
Definition Series := list float.

Definition get (s : Series) (i : nat) : float := nth i s NaN.

Fixpoint map2 {A B C} (f : A -> B -> C) (xs : list A) (ys : list B) : list C :=
  match xs, ys with
  | x :: xs', y :: ys' => f x y :: map2 f xs' ys'
  | _, _ => []
  end.

(** *** Element-wise arithmetic *)

Definition neg (s : Series) : Series := map F.opp s.
Definition sub (a b : Series) : Series := map2 F.sub a b.
Definition div (a b : Series) : Series := map2 F.div a b.
Definition radd (c : float) (s : Series) : Series := map (F.add c) s.
Definition rsub (c : float) (s : Series) : Series := map (F.sub c) s.
Definition rdiv (c : float) (s : Series) : Series := map (F.div c) s.
Definition gt (s : Series) (c : float) : list bool := map (fun x => F.gtb x c) s.
Definition lt (s : Series) (c : float) : list bool := map (fun x => F.ltb x c) s.

(** [s.where(cond, other)]: the cell is kept where [cond] holds and
    replaced by [other] everywhere else. *)
Definition where_ (s : Series) (cond : list bool) (other : float) : Series :=
  map2 (fun x (c : bool) => if c then x else other) s cond.

(** [s.diff()]: the first cell has no predecessor and is NaN. *)
Definition diff (s : Series) : Series :=
  match s with
  | [] => []
  | _ :: rest => NaN :: map2 F.sub rest s
  end.

(** *** Rolling mean *)

(** Bounds of the fixed window of [w] rows that ends at row [i]:
    rows [start w i .. end_ i - 1]. *)
Definition start (w i : nat) : nat := i + 1 - w.
Definition end_ (i : nat) : nat := i + 1.

(** [values[a:b]]. *)
Definition slice {A} (a b : nat) (values : list A) : list A :=
  firstn (b - a) (skipn a values).

(** Rolling aggregations see an infinite cell as a missing one. *)
Definition prep_value (x : float) : float :=
  if F.is_inf x then NaN else x.

(** State of the online mean: how many observations the window holds and
    their running sum.  (The kernel also carries a compensation term and
    sign counters against rounding; in exact arithmetic they change
    nothing and are left out.) *)
Record mean_state := {
  m_nobs : nat;
  sum_x : float
}.

Definition mean_init : mean_state := {| m_nobs := 0; sum_x := F.zero |}.

Definition add_mean (st : mean_state) (val : float) : mean_state :=
  if F.is_obs val
  then {| m_nobs := st.(m_nobs) + 1; sum_x := F.add st.(sum_x) val |}
  else st.

Definition remove_mean (st : mean_state) (val : float) : mean_state :=
  if F.is_obs val
  then {| m_nobs := st.(m_nobs) - 1; sum_x := F.sub st.(sum_x) val |}
  else st.

Definition calc_mean (minp : nat) (st : mean_state) : float :=
  if (minp <=? st.(m_nobs)) && (0 <? st.(m_nobs))
  then F.div st.(sum_x) (F.of_nat st.(m_nobs))
  else NaN.

(** Row [i] of the kernel: the first window is summed from scratch, every
    later one is obtained from its predecessor by removing the rows that
    left and adding the rows that entered. *)
Definition roll_mean_step (w : nat) (values : list float) (st : mean_state) (i : nat)
  : mean_state :=
  let s := start w i in
  let e := end_ i in
  if (i =? 0) || (end_ (i - 1) <=? s)
  then fold_left add_mean (slice s e values) mean_init
  else fold_left add_mean (slice (end_ (i - 1)) e values)
         (fold_left remove_mean (slice (start w (i - 1)) s values) st).

Fixpoint roll_mean_loop (w minp : nat) (values : list float) (st : mean_state)
  (rows : list nat) : list float :=
  match rows with
  | [] => []
  | i :: rest =>
      let st' := roll_mean_step w values st i in
      calc_mean minp st' :: roll_mean_loop w minp values st' rest
  end.

(** [s.rolling(window=w).mean()]; [min_periods] defaults to [w]. *)
Definition rolling_mean (w : nat) (s : Series) : Series :=
  let values := map prep_value s in
  roll_mean_loop w w values mean_init (seq 0 (length s)).

(** *** Exponentially weighted mean *)

(** A span [s] is turned into a centre of mass [(s-1)/2], and the
    smoothing factor is [1/(1+com)]. *)
Definition com_of_span (span : Qc) : Qc := ((span - 1) / Q2Qc 2)%Qc.
Definition alpha_of_com (com : Qc) : Qc := (1 / (1 + com))%Qc.

Record ewm_state := {
  weighted : float;
  old_wt : float;
  nobs : nat
}.

(** One row of the online kernel with [adjust=False] and
    [ignore_na=False]. *)
Definition ewm_step (alpha : float) (st : ewm_state) (cur : float) : ewm_state :=
  let old_wt_factor := F.sub F.one alpha in
  let new_wt := alpha in
  let is_observation := F.is_obs cur in
  let nobs' := (st.(nobs) + if is_observation then 1 else 0)%nat in
  if F.is_obs st.(weighted) then
    let old_wt' := F.mul st.(old_wt) old_wt_factor in
    if is_observation then
      let weighted' :=
        if F.neqb st.(weighted) cur
        then F.div (F.add (F.mul old_wt' st.(weighted)) (F.mul new_wt cur))
                   (F.add old_wt' new_wt)
        else st.(weighted) in
      {| weighted := weighted'; old_wt := F.one; nobs := nobs' |}
    else
      {| weighted := st.(weighted); old_wt := old_wt'; nobs := nobs' |}
  else if is_observation then
    {| weighted := cur; old_wt := st.(old_wt); nobs := nobs' |}
  else
    {| weighted := st.(weighted); old_wt := st.(old_wt); nobs := nobs' |}.

Definition ewm_output (minp : nat) (st : ewm_state) : float :=
  if minp <=? st.(nobs) then st.(weighted) else NaN.

Fixpoint ewm_loop (alpha : float) (minp : nat) (st : ewm_state) (vals : list float)
  : list float :=
  match vals with
  | [] => []
  | cur :: rest =>
      let st' := ewm_step alpha st cur in
      ewm_output minp st' :: ewm_loop alpha minp st' rest
  end.

(** [s.ewm(span=span, adjust=False).mean()]; [min_periods] defaults to 0,
    which the kernel raises to 1.  As for a rolling window, the values
    reach the kernel with every infinite cell turned into a missing one. *)
Definition ewm_mean (span : Z) (s : Series) : Series :=
  let alpha := Fin (alpha_of_com (com_of_span (Q2Qc (inject_Z span)))) in
  let minp := Nat.max 0 1 in
  match map prep_value s with
  | [] => []
  | x0 :: rest =>
      let st0 := {| weighted := x0; old_wt := F.one;
                    nobs := if F.is_obs x0 then 1 else 0 |} in
      ewm_output minp st0 :: ewm_loop alpha minp st0 rest
  end.

(** *** Frames *)

(** Seconds since the epoch; [None] is NaT. *)
Definition Timestamp := option Qc.

Inductive Column : Type :=
| Float64 (xs : list float)
| Datetime64 (ts : list Timestamp).

Definition col_len (c : Column) : nat :=
  match c with
  | Float64 xs => length xs
  | Datetime64 ts => length ts
  end.

(** Columns in insertion order, each under its label. *)
Definition DataFrame := list (string * Column).

Definition columns (df : DataFrame) : list string := map fst df.

Definition nrows (df : DataFrame) : nat :=
  match df with
  | [] => 0
  | (_, c) :: _ => col_len c
  end.

Fixpoint lookup (df : DataFrame) (name : string) : option Column :=
  match df with
  | [] => None
  | (k, c) :: rest => if String.eqb k name then Some c else lookup rest name
  end.

(** [df[name] = col]: an existing column is replaced where it stands, a
    new one is appended after the last. *)
Fixpoint setitem (df : DataFrame) (name : string) (col : Column) : DataFrame :=
  match df with
  | [] => [(name, col)]
  | (k, c) :: rest =>
      if String.eqb k name then (k, col) :: rest
      else (k, c) :: setitem rest name col
  end.

Definition take {A} (d : A) (indexer : list nat) (xs : list A) : list A :=
  map (fun i => nth i xs d) indexer.

Definition col_take (indexer : list nat) (c : Column) : Column :=
  match c with
  | Float64 xs => Float64 (take NaN indexer xs)
  | Datetime64 ts => Datetime64 (take None indexer ts)
  end.

Definition col_tail (n : nat) (c : Column) : Column :=
  match c with
  | Float64 xs => Float64 (skipn (length xs - n) xs)
  | Datetime64 ts => Datetime64 (skipn (length ts - n) ts)
  end.

(** [df.tail(n)]: the last [n] rows, all of them when there are fewer. *)
Definition tail (n : nat) (df : DataFrame) : DataFrame :=
  map (fun '(k, c) => (k, col_tail n c)) df.

Inductive Cell : Type :=
| CFloat (x : float)
| CTime (t : Timestamp).

Definition cell_at (c : Column) (i : nat) : Cell :=
  match c with
  | Float64 xs => CFloat (nth i xs NaN)
  | Datetime64 ts => CTime (nth i ts None)
  end.

(** One row as a flat mapping from column label to cell. *)
Definition Record_ := list (string * Cell).

(** [df.to_dict(orient="records")]. *)
Definition to_dict_records (df : DataFrame) : list Record_ :=
  map (fun i => map (fun '(k, c) => (k, cell_at c i)) df) (seq 0 (nrows df)).

(** *** Columns by label *)

(** [df[name]] *)
Definition getitem (df : DataFrame) (name : string) : Py.result Column :=
  match lookup df name with
  | Some c => Py.ok c
  | None => Py.raise_ (Py.KeyError name)
  end.

(** The cells of a column as numbers, for a window aggregation or an
    element-wise operation.  A column of instants is refused. *)
Definition floats (c : Column) : Py.result Series :=
  match c with
  | Float64 xs => Py.ok xs
  | Datetime64 _ => Py.raise_ Py.DataError
  end.

(** *** Building a frame from a decoded body *)

Definition empty_frame (labels : list string) : DataFrame :=
  map (fun k => (k, Float64 [])) labels.

(** Length of the longest row; shorter rows are padded with missing
    cells up to it. *)
Definition width (rows : list (list Qc)) : nat :=
  fold_right (fun r m => Nat.max (length r) m) 0%nat rows.

Definition padded_cell (row : list Qc) (j : nat) : float :=
  match nth_error row j with
  | Some q => Fin q
  | None => NaN
  end.

(** [pd.DataFrame(data, columns=labels)].  An empty array gives a frame
    without rows.  An array of rows must be as wide as [labels] is long.
    Of an object only the entries under one of [labels] are used: with none
    of them the frame has no rows, and a bare string under a label is
    refused. *)
Definition DataFrame_ (data : Py.Body) (labels : list string) : Py.result DataFrame :=
  match data with
  | Py.Rows [] => Py.ok (empty_frame labels)
  | Py.Rows rows =>
      if width rows =? length labels
      then Py.ok (map (fun '(j, k) => (k, Float64 (map (fun r => padded_cell r j) rows)))
                      (combine (seq 0 (length labels)) labels))
      else Py.raise_ Py.ValueError
  | Py.Message _ =>
      if existsb (String.eqb "message") labels
      then Py.raise_ Py.ValueError
      else Py.ok (empty_frame labels)
  end.

(** *** Instants *)

(** An instant is stored as a signed 64-bit count of nanoseconds. *)
Definition in_ns_bounds (q : Qc) : bool :=
  Qle_bool (Qabs (this q * (1000000000 # 1))) (9223372036854775807 # 1).

Fixpoint to_instants (xs : list float) : Py.result (list Timestamp) :=
  match xs with
  | [] => Py.ok []
  | x :: rest =>
      match x with
      | NaN =>
          Py.rbind (to_instants rest) (fun ts => Py.ok (None :: ts))
      | Fin q =>
          if in_ns_bounds q
          then Py.rbind (to_instants rest) (fun ts => Py.ok (Some q :: ts))
          else Py.raise_ Py.OutOfBoundsDatetime
      | _ => Py.raise_ Py.OutOfBoundsDatetime
      end
  end.

(** [pd.to_datetime(col, unit="s")] *)
Definition to_datetime (c : Column) : Py.result Column :=
  match c with
  | Float64 xs => Py.rbind (to_instants xs) (fun ts => Py.ok (Datetime64 ts))
  | Datetime64 ts => Py.ok (Datetime64 ts)
  end.

(** *** Sorting rows *)

(** Orders used by a sort: missing values go last. *)
Definition ts_leb (a b : Timestamp) : bool :=
  match a, b with
  | _, None => true
  | None, Some _ => false
  | Some x, Some y => match (x ?= y)%Qc with Gt => false | _ => true end
  end.

Definition float_leb (a b : float) : bool :=
  match a, b with
  | _, NaN => true
  | NaN, _ => false
  | _, _ => negb (F.ltb b a)
  end.

Fixpoint insert_by {K} (leb : K -> K -> bool) (d : K) (keys : list K) (i : nat)
  (sorted : list nat) : list nat :=
  match sorted with
  | [] => [i]
  | j :: rest =>
      if leb (nth j keys d) (nth i keys d)
      then j :: insert_by leb d keys i rest
      else i :: j :: rest
  end.

(** Positions of [keys] in ascending order.  Rows with equal keys keep
    their relative order here; numpy leaves that order open, and candle
    timestamps are distinct. *)
Definition argsort {K} (leb : K -> K -> bool) (d : K) (keys : list K) : list nat :=
  fold_left (fun acc i => insert_by leb d keys i acc) (seq 0 (length keys)) [].

(** [df.sort_values(by)] *)
Definition sort_values (df : DataFrame) (by_ : string) : Py.result DataFrame :=
  Py.rbind (getitem df by_) (fun key =>
    let indexer :=
      match key with
      | Float64 xs => argsort float_leb NaN xs
      | Datetime64 ts => argsort ts_leb None ts
      end in
    Py.ok (map (fun '(k, c) => (k, col_take indexer c)) df)).

End Pandas.


Abbreviation Series := Pandas.Series.
Abbreviation DataFrame := Pandas.DataFrame.
Abbreviation Float64 := Pandas.Float64.
Abbreviation Datetime64 := Pandas.Datetime64.

(* ================================================================= *)
(** ** The outside world and the monad of the scripts *)

Module Runtime.

Import Py.

(** *** What the scripts exchange with the outside *)

(** The GET request for candles; [start] and [end_] are instants in
    seconds since the epoch, sent in ISO format. *)
Record Request := {
  url : string;
  granularity_param : Z;
  start_param : Z;
  end_param : Z
}.

(** What [requests.get] hands back.  [json] is what [response.json()]
    yields: [None] when the body is empty or is not JSON, where that call
    raises. *)
Record Response := {
  status_code : Z;
  json : option Body
}.

Record ChatMessage := {
  role : string;
  content : string
}.

Record ChatRequest := {
  model : string;
  messages : list ChatMessage
}.

Record Choice := {
  message_content : option string
}.

Record Completion := {
  choices : list Choice
}.

(** The collaborators of a run, fixed from outside: the clock, the
    process environment, the two remote services, the file system faults,
    and the two text renderings the model does not look into. *)
Record Env := {
  clock : nat -> Z;
  strftime_local : Z -> string;
  getenv : string -> option string;
  http_get : Request -> result Response;
  chat_create : string -> ChatRequest -> result Completion;
  open_fails : string -> bool;
  write_fails : string -> string -> option nat;
  str_records : list Pandas.Record_ -> string
}.

(** What a run changes: the files, and the log of what was sent out. *)
Record World := {
  fs : list (string * string);
  clock_reads : nat;
  http_log : list Request;
  chat_log : list ChatRequest
}.

Fixpoint read_file (files : list (string * string)) (path : string) : option string :=
  match files with
  | [] => None
  | (p, data) :: rest => if String.eqb p path then Some data else read_file rest path
  end.

Fixpoint write_file (files : list (string * string)) (path data : string)
  : list (string * string) :=
  match files with
  | [] => [(path, data)]
  | (p, old) :: rest =>
      if String.eqb p path then (p, data) :: rest
      else (p, old) :: write_file rest path data
  end.

(** *** The monad: reads [Env], threads [World], may raise *)

Definition M (A : Type) : Type := Env -> World -> World * result A.

Definition ret {A} (a : A) : M A := fun _ w => (w, inr a).
Definition raise {A} (e : exn) : M A := fun _ w => (w, inl e).

Definition bind {A B} (m : M A) (k : A -> M B) : M B :=
  fun env w =>
    match m env w with
    | (w', inl e) => (w', inl e)
    | (w', inr a) => k a env w'
    end.

Definition lift {A} (r : result A) : M A := fun _ w => (w, r).

(** [datetime.now(timezone.utc)] *)
Definition now : M Z :=
  fun env w =>
    ({| fs := w.(fs); clock_reads := S w.(clock_reads);
        http_log := w.(http_log); chat_log := w.(chat_log) |},
     inr (env.(clock) w.(clock_reads))).

(** [requests.get(url, params=params)] *)
Definition requests_get (rq : Request) : M Response :=
  fun env w =>
    ({| fs := w.(fs); clock_reads := w.(clock_reads);
        http_log := w.(http_log) ++ [rq]; chat_log := w.(chat_log) |},
     env.(http_get) rq).

(** [response.json()] *)
Definition response_json (r : Response) : result Body :=
  match r.(json) with
  | Some b => ok b
  | None => raise_ JSONDecodeError
  end.

(** [OpenAI(api_key=key)]: without a key the client looks for
    OPENAI_API_KEY in the environment and raises when that is unset
    too.  What the client does with an empty key depends on its version
    and is not modelled: the theorems about a run that has a key take a
    key that is not empty. *)
Definition OpenAI (api_key : option string) : M string :=
  fun env w =>
    match api_key with
    | Some k => (w, inr k)
    | None =>
        match env.(getenv) "OPENAI_API_KEY" with
        | Some k => (w, inr k)
        | None => (w, inl OpenAIError)
        end
    end.

(** [client.chat.completions.create(model=..., messages=...)] *)
Definition chat_completions_create (client : string) (rq : ChatRequest) : M Completion :=
  fun env w =>
    ({| fs := w.(fs); clock_reads := w.(clock_reads);
        http_log := w.(http_log); chat_log := w.(chat_log) ++ [rq] |},
     env.(chat_create) client rq).

(** [open(path, "w")]: on success the file exists and is empty. *)
Definition open_w (path : string) : M string :=
  fun env w =>
    if env.(open_fails) path then (w, inl OSError)
    else
      ({| fs := write_file w.(fs) path ""; clock_reads := w.(clock_reads);
          http_log := w.(http_log); chat_log := w.(chat_log) |},
       inr path).

(** [f.write(data)] followed by the close at the end of the [with]
    block.  A write that fails after [n] characters leaves those in the
    file. *)
Definition write_close (path data : string) : M unit :=
  fun env w =>
    match env.(write_fails) path data with
    | None =>
        ({| fs := write_file w.(fs) path data; clock_reads := w.(clock_reads);
            http_log := w.(http_log); chat_log := w.(chat_log) |},
         inr tt)
    | Some n =>
        ({| fs := write_file w.(fs) path (substring 0 n data);
            clock_reads := w.(clock_reads);
            http_log := w.(http_log); chat_log := w.(chat_log) |},
         inl OSError)
    end.

(** [os.getenv(name)] *)
Definition os_getenv (name : string) : M (option string) :=
  fun env w => (w, inr (env.(getenv) name)).

(** [str(records)], as an f-string renders a list of dicts. *)
Definition str_of_records (records : list Pandas.Record_) : M string :=
  fun env w => (w, inr (env.(str_records) records)).

(** [t.astimezone().strftime('%Y-%m-%d %H:%M:%S')] *)
Definition strftime (t : Z) : M string :=
  fun env w => (w, inr (env.(strftime_local) t)).

(** An f-string slot filled with a value that may be [None]. *)
Definition str_opt (x : option string) : string :=
  match x with
  | Some s => s
  | None => "None"
  end.

End Runtime.

Declare Scope py_scope.
Delimit Scope py_scope with py.
Notation "x <- m ;; k" := (Runtime.bind m (fun x => k))
  (at level 61, m at next level, right associativity) : py_scope.
Notation "x <~ r ;; k" := (Py.rbind r (fun x => k))
  (at level 61, r at next level, right associativity) : py_scope.

Open Scope string_scope.

Definition nl : string := String "010"%char EmptyString.
Definition dq : string := String "034"%char EmptyString.

(* ================================================================= *)
(** ** main.py *)

Module Main.

Import Runtime.

Inductive CryptoCurrency : Type := SOLANA | ETHEREUM | BITCOIN.

Definition value (c : CryptoCurrency) : string :=
  match c with
  | SOLANA => "SOL-USD"
  | ETHEREUM => "ETH-USD"
  | BITCOIN => "BTC-USD"
  end.

(** Read once when the module is loaded; the environment does not change
    during a run, so reading it where it is used gives the same key. *)
Definition API_KEY : M (option string) := os_getenv "OPEN_API_KEY".

Definition PROMPT : string :=
  "Identify support and resistance levels for Solana based on the provided OHLCV data and technical indicators."
  ++ " Write a short summary in this format: Solana is currently trading at $X. The daily support level is $Y and the daily resistance level is $Z.".
Definition gpt_version : string := "5".
Definition symbol : string := value SOLANA.
Definition days_to_analyze : Z := 30.
Definition granularity : Z := 3600.
Definition limit : Z := 200.

Definition candle_columns : list string :=
  ["time"; "low"; "high"; "open"; "close"; "volume"].

(** *** Fetch candle data *)

(** The window is computed on integers.  Python raises [OverflowError] in
    [end - timedelta(seconds=granularity * limit)] when the span does not
    fit a timedelta or the start is not a date of the years 1 to 9999;
    that error is not modelled, and [Props.window_fits] says when it is not
    raised. *)
Definition get_coinbase_candles (symbol : string) (granularity limit : Z) : M DataFrame :=
  (end_ <- now ;;
   let start := (end_ - granularity * limit)%Z in
   let url := "https://api.exchange.coinbase.com/products/" ++ symbol ++ "/candles" in
   response <- requests_get {| url := url; granularity_param := granularity;
                               start_param := start; end_param := end_ |} ;;
   data <- lift (response_json response) ;;
   df <- lift (Pandas.DataFrame_ data candle_columns) ;;
   time <- lift (Py.rbind (Pandas.getitem df "time") Pandas.to_datetime) ;;
   let df := Pandas.setitem df "time" time in
   df <- lift (Pandas.sort_values df "time") ;;
   ret df)%py.

(** *** Add indicators *)

(** [df["close"]], as the numbers the aggregations work on. *)
Definition close_of (df : DataFrame) : Py.result Series :=
  Py.rbind (Pandas.getitem df "close") Pandas.floats.

(** The local variables of the RSI lines. *)
Record RsiVars := {
  delta : Series;
  gain : Series;
  loss : Series;
  avg_gain : Series;
  avg_loss : Series;
  rs : Series;
  rsi : Series
}.

Definition rsi_vars (close : Series) : RsiVars :=
  let delta := Pandas.diff close in
  let gain := Pandas.where_ delta (Pandas.gt delta (F.of_Z 0)) (F.of_Z 0) in
  let loss := Pandas.neg (Pandas.where_ delta (Pandas.lt delta (F.of_Z 0)) (F.of_Z 0)) in
  let avg_gain := Pandas.rolling_mean 14 gain in
  let avg_loss := Pandas.rolling_mean 14 loss in
  let rs := Pandas.div avg_gain avg_loss in
  {| delta := delta; gain := gain; loss := loss;
     avg_gain := avg_gain; avg_loss := avg_loss; rs := rs;
     rsi := Pandas.rsub (F.of_Z 100) (Pandas.rdiv (F.of_Z 100) (Pandas.radd (F.of_Z 1) rs)) |}.

Definition short_ema (close : Series) : Series := Pandas.ewm_mean 12 close.
Definition long_ema (close : Series) : Series := Pandas.ewm_mean 26 close.

Definition add_indicators (df : DataFrame) : Py.result DataFrame :=
  (close <~ close_of df ;;
   let df := Pandas.setitem df "SMA20" (Float64 (Pandas.rolling_mean 20 close)) in
   close <~ close_of df ;;
   let df := Pandas.setitem df "EMA20" (Float64 (Pandas.ewm_mean 20 close)) in

   close <~ close_of df ;;
   let df := Pandas.setitem df "RSI" (Float64 (rsi_vars close).(rsi)) in

   close <~ close_of df ;;
   let short := short_ema close in
   close <~ close_of df ;;
   let long := long_ema close in
   let df := Pandas.setitem df "MACD" (Float64 (Pandas.sub short long)) in
   macd <~ Py.rbind (Pandas.getitem df "MACD") Pandas.floats ;;
   let df := Pandas.setitem df "Signal" (Float64 (Pandas.ewm_mean 9 macd)) in

   Py.ok df)%py.

(** *** Send to ChatGPT *)

Definition data_label : string :=
  nl ++ nl ++ "Here is the OHLCV + indicators data:" ++ nl.

Definition analyze_with_chatgpt (df : DataFrame) (prompt : string) : M (option string) :=
  (key <- API_KEY ;;
   client <- OpenAI key ;;
   let data_sample := Pandas.to_dict_records (Pandas.tail 100 df) in
   rendered <- str_of_records data_sample ;;
   completion <- chat_completions_create client
     {| model := "gpt-" ++ gpt_version;
        messages := [ {| role := "system"; content := prompt |};
                      {| role := "user"; content := data_label ++ rendered |} ] |} ;;
   match completion.(choices) with
   | [] => raise Py.IndexError
   | top :: _ => ret top.(message_content)
   end)%py.

(** *** Main *)

Definition rule : string :=
  "-------------------------------------------------------------------------".

Definition main (symbol : string) (granularity limit : Z) : M string :=
  (candles <- get_coinbase_candles symbol granularity limit ;;
   candles <- lift (add_indicators candles) ;;
   analysis <- analyze_with_chatgpt candles PROMPT ;;
   let lines := rule in
   t <- now ;;
   stamp <- strftime t ;;
   ret (str_opt analysis ++ nl ++ lines ++ nl ++ " End analysis at " ++ stamp))%py.

(** The lines of the page before the one that holds the slot. *)
Definition page_head_lines : list string :=
  [ "<!DOCTYPE html>";
    "<html lang=" ++ dq ++ "en" ++ dq ++ ">";
    "  <head>";
    "    <meta charset=" ++ dq ++ "UTF-8" ++ dq ++ " />";
    "    <title>Imran A</title>";
    "    <link rel=" ++ dq ++ "stylesheet" ++ dq ++ " href=" ++ dq ++ "css/styles.css" ++ dq ++ " />";
    "    <link rel=" ++ dq ++ "icon" ++ dq ++ " href=" ++ dq ++ "images/myicon.ico?v=2" ++ dq ++ " />";
    "    <link rel=" ++ dq ++ "preconnect" ++ dq ++ " href=" ++ dq ++ "https://fonts.googleapis.com" ++ dq ++ " />";
    "    <link rel=" ++ dq ++ "preconnect" ++ dq ++ " href=" ++ dq ++ "https://fonts.gstatic.com" ++ dq ++ " crossorigin />";
    "    <link";
    "      href=" ++ dq ++ "https://fonts.googleapis.com/css2?family=Source+Code+Pro&display=swap" ++ dq;
    "      rel=" ++ dq ++ "stylesheet" ++ dq;
    "    />";
    "  </head>";
    EmptyString;
    "  <body>";
    "    <div>";
    "      <table id=" ++ dq ++ "topsection" ++ dq ++ ">";
    "        <tr>";
    "          <td>";
    "            <img";
    "              class=" ++ dq ++ "profilepic" ++ dq;
    "              src=" ++ dq ++ "images/profilepic.png?v=2" ++ dq;
    "              alt=" ++ dq ++ "profile pic Imran Aurangzeb" ++ dq;
    "              srcset=" ++ dq ++ dq;
    "            />";
    "          </td>";
    "          <td>";
    "            <h1 class=" ++ dq ++ "nametitle" ++ dq ++ ">Imran A</h1>";
    "          </td>";
    "        </tr>";
    "      </table>";
    "    </div>";
    EmptyString;
    "    <hr size=" ++ dq ++ "3" ++ dq ++ " />";
    EmptyString;
    "    <div>";
    "      <p>";
    "        I began programming in BASIC on the Commodore 64 at the age of twelve.";
    "        In my fifth decade, following a long hiatus during which I pursued a";
    "        career in medicine, I chose to rekindle this passion. The journey has";
    "        proved immensely rewarding.";
    "      </p>";
    "      <br />";
    "    </div>";
    EmptyString;
    "    <div class=" ++ dq ++ "two-columns" ++ dq ++ ">";
    "      <div class=" ++ dq ++ "column" ++ dq ++ ">";
    "        <h2>Column One</h2>";
    "        <p>" ].

(** The lines of the page after the one that holds the slot. *)
Definition page_tail_lines : list string :=
  [ "        </p>";
    "      </div>";
    "      <div class=" ++ dq ++ "column" ++ dq ++ ">";
    "        <h2>Column Two</h2>";
    "        <p>";
    "          Suspendisse potenti. Nulla facilisi. Donec vitae eros vel sapien";
    "          suscipit porttitor. Phasellus at augue a mi pretium bibendum.";
    "          Suspendisse potenti. Nulla facilisi. Donec vitae eros vel sapien";
    "          suscipit porttitor. Phasellus at augue a mi pretium bibendum.";
    "        </p>";
    "      </div>";
    "    </div>";
    "  </body>";
    "</html>";
    EmptyString ].

(** The page: the fixed text around the one slot that takes the analysis. *)
Definition content (analysis : string) : string :=
  nl ++ String.concat nl page_head_lines ++ nl
     ++ "          " ++ analysis ++ nl
     ++ String.concat nl page_tail_lines ++ nl.

(** The module body after the definitions: run [main], fill the page,
    write it to index.html. *)
Definition script : M unit :=
  (analysis <- main symbol granularity limit ;;
   let content := content analysis in
   f <- open_w "index.html" ;;
   write_close f content)%py.

End Main.

(* ================================================================= *)
(** ** src/resistance_support.py *)

Module ResistanceSupport.

Definition close_of (df : DataFrame) : Py.result Series :=
  Py.rbind (Pandas.getitem df "close") Pandas.floats.

Definition add_indicators (df : DataFrame) : Py.result DataFrame :=
  (close <~ close_of df ;;
   let df := Pandas.setitem df "SMA20" (Float64 (Pandas.rolling_mean 20 close)) in
   close <~ close_of df ;;
   let df := Pandas.setitem df "EMA20" (Float64 (Pandas.ewm_mean 20 close)) in

   close <~ close_of df ;;
   let delta := Pandas.diff close in
   let gain := Pandas.where_ delta (Pandas.gt delta (F.of_Z 0)) (F.of_Z 0) in
   let loss := Pandas.neg (Pandas.where_ delta (Pandas.lt delta (F.of_Z 0)) (F.of_Z 0)) in
   let avg_gain := Pandas.rolling_mean 14 gain in
   let avg_loss := Pandas.rolling_mean 14 loss in
   let rs := Pandas.div avg_gain avg_loss in
   let df := Pandas.setitem df "RSI"
     (Float64 (Pandas.rsub (F.of_Z 100) (Pandas.rdiv (F.of_Z 100) (Pandas.radd (F.of_Z 1) rs)))) in

   close <~ close_of df ;;
   let short_ema := Pandas.ewm_mean 12 close in
   close <~ close_of df ;;
   let long_ema := Pandas.ewm_mean 26 close in
   let df := Pandas.setitem df "MACD" (Float64 (Pandas.sub short_ema long_ema)) in
   macd <~ Py.rbind (Pandas.getitem df "MACD") Pandas.floats ;;
   let df := Pandas.setitem df "Signal" (Float64 (Pandas.ewm_mean 9 macd)) in

   Py.ok df)%py.

Import Runtime.

(** *** Loading the key *)

(** What the module meets when it is loaded: whether the working directory
    holds a file named .env, and the variables [load_dotenv()] reads from
    the file it finds (none when it finds no file). *)
Record DotEnv := {
  in_cwd : bool;
  variables : list (string * string)
}.

(** [load_dotenv()]: every variable of the file that the process does not
    have yet is added to its environment; a variable already set is kept. *)
Definition load_dotenv (d : DotEnv) (env : Env) : Env :=
  {| clock := env.(clock);
     strftime_local := env.(strftime_local);
     getenv := fun name =>
       match env.(getenv) name with
       | Some v => Some v
       | None => read_file d.(variables) name
       end;
     http_get := env.(http_get);
     chat_create := env.(chat_create);
     open_fails := env.(open_fails);
     write_fails := env.(write_fails);
     str_records := env.(str_records) |}.

(** The environment the functions of the module run in, after the lines
    that load the key: [load_dotenv()] is called only when .env exists in
    the working directory. *)
Definition environ (d : DotEnv) (env : Env) : Env :=
  if negb d.(in_cwd) then env else load_dotenv d env.

(** A computation of the module, run after the module was loaded. *)
Definition imported (d : DotEnv) {A} (m : M A) : M A :=
  fun env w => m (environ d env) w.

(** Both branches end in [os.getenv("OPEN_API_KEY")]. *)
Definition API_KEY : M (option string) := os_getenv "OPEN_API_KEY".

Definition PROMPT : string :=
  "Identify support and resistance levels for Solana based on the provided OHLCV data and technical indicators."
  ++ " Write a short summary in this format: Solana is currently trading at $X. The daily support level is $Y and the daily resistance level is $Z.".
Definition gpt_version : string := "5".
Definition symbol : string := "SOL-USD".
Definition days_to_analyze : Z := 30.
Definition granularity : Z := 3600.
Definition limit : Z := 200.

Definition candle_columns : list string :=
  ["time"; "low"; "high"; "open"; "close"; "volume"].

(** *** Fetch candle data *)

(** As in [Main], the window is computed on integers. *)
Definition get_coinbase_candles (symbol : string) (granularity limit : Z) : M DataFrame :=
  (end_ <- now ;;
   let start := (end_ - granularity * limit)%Z in
   let url := "https://api.exchange.coinbase.com/products/" ++ symbol ++ "/candles" in
   response <- requests_get {| url := url; granularity_param := granularity;
                               start_param := start; end_param := end_ |} ;;
   data <- lift (response_json response) ;;
   df <- lift (Pandas.DataFrame_ data candle_columns) ;;
   time <- lift (Py.rbind (Pandas.getitem df "time") Pandas.to_datetime) ;;
   let df := Pandas.setitem df "time" time in
   df <- lift (Pandas.sort_values df "time") ;;
   ret df)%py.

(** *** Send to ChatGPT *)

Definition data_label : string :=
  nl ++ nl ++ "Here is the OHLCV + indicators data:" ++ nl.

Definition analyze_with_chatgpt (df : DataFrame) (prompt : string) : M (option string) :=
  (key <- API_KEY ;;
   client <- OpenAI key ;;
   let data_sample := Pandas.to_dict_records (Pandas.tail 100 df) in
   rendered <- str_of_records data_sample ;;
   completion <- chat_completions_create client
     {| model := "gpt-" ++ gpt_version;
        messages := [ {| role := "system"; content := prompt |};
                      {| role := "user"; content := data_label ++ rendered |} ] |} ;;
   match completion.(choices) with
   | [] => raise Py.IndexError
   | top :: _ => ret top.(message_content)
   end)%py.

(** *** Main *)

Definition get_resistance_support (d : DotEnv) (symbol : string) (granularity limit : Z)
  : M string :=
  imported d
    (candles <- get_coinbase_candles symbol granularity limit ;;
     candles <- lift (add_indicators candles) ;;
     analysis <- analyze_with_chatgpt candles PROMPT ;;
     let message := str_opt analysis in
     ret message)%py.

End ResistanceSupport.

(* ================================================================= *)
(** ** Reference definitions

    What the indicators are said to be, written without the recurrences
    and window bookkeeping of the code, for comparison with it. *)

Module Spec.

(** A series of finite prices as a numeric Series. *)
Definition fin (qs : list Qc) : Series := map Fin qs.

Definition qc_of_nat (n : nat) : Qc := Q2Qc (inject_Z (Z.of_nat n)).
Definition qc_of_Z (z : Z) : Qc := Q2Qc (inject_Z z).

Fixpoint qsum (l : list Qc) : Qc :=
  match l with
  | [] => 0
  | x :: rest => x + qsum rest
  end.

Definition arithmetic_mean (l : list Qc) : Qc := (qsum l / qc_of_nat (length l))%Qc.

(** [xs[i-n+1 .. i]], the [n] values that end at position [i]. *)
Definition last_values (n i : nat) (xs : list Qc) : list Qc :=
  map (fun k => nth k xs 0%Qc) (seq (i + 1 - n) n).

(** The recursive exponentially weighted mean: the first value seeds it,
    and each later one is [alpha * x + (1 - alpha) * previous]. *)
Fixpoint recursive_ewm_from (alpha prev : Qc) (xs : list Qc) : list Qc :=
  match xs with
  | [] => []
  | x :: rest =>
      let e := (alpha * x + (1 - alpha) * prev)%Qc in
      e :: recursive_ewm_from alpha e rest
  end.

Definition alpha_of_span (span : Z) : Qc := (Q2Qc 2 / (qc_of_Z span + 1))%Qc.

Definition recursive_ewm (span : Z) (xs : list Qc) : list Qc :=
  match xs with
  | [] => []
  | x0 :: rest => x0 :: recursive_ewm_from (alpha_of_span span) x0 rest
  end.

(** A numeric column of a frame that was produced without error. *)
Definition column (r : Py.result DataFrame) (name : string) : option Series :=
  match r with
  | inr df =>
      match Pandas.lookup df name with
      | Some (Float64 xs) => Some xs
      | _ => None
      end
  | inl _ => None
  end.

Definition indicator_columns : list string :=
  ["SMA20"; "EMA20"; "RSI"; "MACD"; "Signal"].

(** A candle series of [L] rows: the six columns of the fetcher, each of
    [L] cells, with numeric closes. *)
Definition CandleSeries (df : DataFrame) (L : nat) : Prop :=
  Pandas.columns df = Main.candle_columns
  /\ Forall (fun kc => Pandas.col_len (snd kc) = L) df
  /\ exists xs, Pandas.lookup df "close" = Some (Float64 xs).

(** The state the rolling kernel should hold for a window of finite
    values. *)
Definition summary (l : list Qc) : Pandas.mean_state :=
  {| Pandas.m_nobs := length l; Pandas.sum_x := Fin (qsum l) |}.

(** The values of the window that ends at row [i]. *)
Definition win (w i : nat) (qs : list Qc) : list Qc :=
  Pandas.slice (Pandas.start w i) (Pandas.end_ i) qs.

(** The frame [add_indicators] returns for a frame whose closes are
    [close]: the five columns set one after the other. *)
Definition enriched (df : DataFrame) (close : Series) : DataFrame :=
  let macd := Pandas.sub (Main.short_ema close) (Main.long_ema close) in
  Pandas.setitem
    (Pandas.setitem
       (Pandas.setitem
          (Pandas.setitem
             (Pandas.setitem df "SMA20" (Float64 (Pandas.rolling_mean 20 close)))
             "EMA20" (Float64 (Pandas.ewm_mean 20 close)))
          "RSI" (Float64 (Main.rsi (Main.rsi_vars close))))
       "MACD" (Float64 macd))
    "Signal" (Float64 (Pandas.ewm_mean 9 macd)).

(** One cell of the RSI column from the two averages of its row. *)
Definition rsi_cell (avg_gain avg_loss : float) : float :=
  F.sub (F.of_Z 100) (F.div (F.of_Z 100) (F.add (F.of_Z 1) (F.div avg_gain avg_loss))).

(** Gains and losses of a series of finite prices, as numbers: the first
    position holds zero, every later one the positive part of the step up,
    respectively of the step down. *)
Definition qpos (d : Qc) : Qc :=
  match (0 ?= d)%Qc with Lt => d | _ => 0%Qc end.

Definition qneg (d : Qc) : Qc :=
  match (d ?= 0)%Qc with Lt => (- d)%Qc | _ => 0%Qc end.

Definition steps (qs : list Qc) : list Qc :=
  Pandas.map2 Qcminus (List.tl qs) qs.

Definition gains (qs : list Qc) : list Qc :=
  match qs with
  | [] => []
  | _ :: _ => 0%Qc :: map qpos (steps qs)
  end.

Definition losses (qs : list Qc) : list Qc :=
  match qs with
  | [] => []
  | _ :: _ => 0%Qc :: map qneg (steps qs)
  end.

(** Row [i] of a frame as a flat record: the label of every column with
    the cell the column holds in that row, in the order of the columns. *)
Definition flat_record (df : DataFrame) (i : nat) : Pandas.Record_ :=
  map (fun kc => (fst kc, Pandas.cell_at (snd kc) i)) df.

(** A computation that leaves every file as it found it. *)
Definition keeps_fs {A} (m : Runtime.M A) : Prop :=
  forall env w, Runtime.fs (fst (m env w)) = Runtime.fs w.

(** The request [get_coinbase_candles] sends when the clock is read for
    the k-th time. *)
Definition candles_request (env : Runtime.Env) (w : Runtime.World)
  (symbol : string) (granularity limit : Z) : Runtime.Request :=
  let now := Runtime.clock env (Runtime.clock_reads w) in
  {| Runtime.url := "https://api.exchange.coinbase.com/products/" ++ symbol ++ "/candles";
     Runtime.granularity_param := granularity;
     Runtime.start_param := (now - granularity * limit)%Z;
     Runtime.end_param := now |}.

(** The candle series a decoded body stands for; the status of the
    response is not among its arguments. *)
Definition candles_of_body (body : option Py.Body) : Py.result DataFrame :=
  match body with
  | None => inl Py.JSONDecodeError
  | Some data =>
      Py.rbind (Pandas.DataFrame_ data Main.candle_columns) (fun df =>
      Py.rbind (Py.rbind (Pandas.getitem df "time") Pandas.to_datetime) (fun time =>
      Pandas.sort_values (Pandas.setitem df "time" time) "time"))
  end.

(** A candle series without rows. *)
Definition no_candles : DataFrame :=
  [ ("time", Datetime64 []); ("low", Float64 []); ("high", Float64 []);
    ("open", Float64 []); ("close", Float64 []); ("volume", Float64 []) ].

(** The key the client ends up with: the one the script read from
    OPEN_API_KEY, else the one the client finds under OPENAI_API_KEY. *)
Definition resolved_key (env : Runtime.Env) : option string :=
  match Runtime.getenv env "OPEN_API_KEY" with
  | Some k => Some k
  | None => Runtime.getenv env "OPENAI_API_KEY"
  end.

(** The one chat request of a run: the prompt as the system turn, and the
    label followed by the rendered records as the user turn. *)
Definition chat_request (env : Runtime.Env) (prompt : string)
  (records : list Pandas.Record_) : Runtime.ChatRequest :=
  {| Runtime.model := "gpt-5";
     Runtime.messages :=
       [ {| Runtime.role := "system"; Runtime.content := prompt |};
         {| Runtime.role := "user";
            Runtime.content := Main.data_label ++ Runtime.str_records env records |} ] |}.

(** What the caller gets from a completion: the text of its first
    choice. *)
Definition top_text (r : Py.result Runtime.Completion) : Py.result (option string) :=
  match r with
  | inl e => inl e
  | inr completion =>
      match Runtime.choices completion with
      | [] => inl Py.IndexError
      | top :: _ => inr (Runtime.message_content top)
      end
  end.

End Spec.

(* ================================================================= *)
(** ** Sample inputs *)

Module Samples.

(** An hourly candle series built around a list of closes. *)
Definition frame_of_closes (qs : list Qc) : DataFrame :=
  [ ("time", Datetime64 (map (fun i => Some (Spec.qc_of_Z (3600 * Z.of_nat i)))
                             (seq 0 (length qs))));
    ("low", Float64 (map (fun q => Fin (q - 1)%Qc) qs));
    ("high", Float64 (map (fun q => Fin (q + 1)%Qc) qs));
    ("open", Float64 (Spec.fin qs));
    ("close", Float64 (Spec.fin qs));
    ("volume", Float64 (map (fun _ => F.of_Z 100) qs)) ].

(** Twenty-two closes that zig-zag upwards. *)
Definition zigzag : list Qc :=
  map Spec.qc_of_Z
    [1; 3; 2; 5; 4; 6; 5; 8; 7; 9; 8; 10; 9; 12; 11; 13; 12; 14; 13; 15; 14; 16]%Z.

(** Sixteen closes that only rise. *)
Definition rising : list Qc :=
  map Spec.qc_of_Z [1; 2; 3; 4; 5; 6; 7; 8; 9; 10; 11; 12; 13; 14; 15; 16]%Z.

(** *** Collaborators of a run *)

Definition candle_row (i : nat) (q : Qc) : list Qc :=
  [ Spec.qc_of_Z (1700000000 + 3600 * Z.of_nat i);
    (q - 1)%Qc; (q + 1)%Qc; q; q; Spec.qc_of_Z 100 ].

(** The zig-zag closes as the exchange would send them, newest first. *)
Definition zigzag_rows : list (list Qc) :=
  rev (map (fun '(i, q) => candle_row i q) (combine (seq 0 (length zigzag)) zigzag)).

Definition summary_text : string :=
  "Solana is currently trading at $150. The daily support level is $145 and the daily resistance level is $160.".

(** Everything answers: the exchange with status 200 and the zig-zag
    candles, the chat service with one choice, the disk without fault. *)
Definition env_ok : Runtime.Env :=
  {| Runtime.clock := fun k => (1700079200 + Z.of_nat k)%Z;
     Runtime.strftime_local := fun _ => "2023-11-15 20:13:20";
     Runtime.getenv := fun name => if String.eqb name "OPEN_API_KEY" then Some "sk-test" else None;
     Runtime.http_get := fun _ =>
       Py.ok {| Runtime.status_code := 200; Runtime.json := Some (Py.Rows zigzag_rows) |};
     Runtime.chat_create := fun _ _ =>
       Py.ok {| Runtime.choices := [ {| Runtime.message_content := Some summary_text |} ] |};
     Runtime.open_fails := fun _ => false;
     Runtime.write_fails := fun _ _ => None;
     Runtime.str_records := fun records => "[records]" |}.


(** As [env_ok], but the exchange answers 404 with its error object. *)
Definition env_not_found : Runtime.Env :=
  {| Runtime.clock := Runtime.clock env_ok;
     Runtime.strftime_local := Runtime.strftime_local env_ok;
     Runtime.getenv := Runtime.getenv env_ok;
     Runtime.http_get := fun _ =>
       Py.ok {| Runtime.status_code := 404; Runtime.json := Some (Py.Message "NotFound") |};
     Runtime.chat_create := Runtime.chat_create env_ok;
     Runtime.open_fails := Runtime.open_fails env_ok;
     Runtime.write_fails := Runtime.write_fails env_ok;
     Runtime.str_records := Runtime.str_records env_ok |}.

(** A world in which an earlier run left a page behind. *)
Definition world_with_page : Runtime.World :=
  {| Runtime.fs := [("index.html", "<html>yesterday</html>")];
     Runtime.clock_reads := 0;
     Runtime.http_log := [];
     Runtime.chat_log := [] |}.

End Samples.

(* ================================================================= *)
(** ** Further properties: vocabulary and sample inputs *)

Module Props.

(** *** Candles as the exchange sends them *)

(** Cell [j] of row [i] of a decoded array. *)
Definition cell_of (rows : list (list Qc)) (i j : nat) : Qc :=
  nth j (nth i rows []) 0%Qc.

(** A row the fetcher can turn into a candle: six cells, the first an
    instant that fits a 64-bit count of nanoseconds. *)
Definition candle_row_ok (r : list Qc) : Prop :=
  length r = 6%nat /\ Pandas.in_ns_bounds (nth 0 r 0%Qc) = true.

(** The frame whose row [k] is row [indexer[k]] of the array. *)
Definition candles_taken (rows : list (list Qc)) (indexer : list nat) : DataFrame :=
  [ ("time", Datetime64 (map (fun i => Some (cell_of rows i 0)) indexer));
    ("low", Float64 (map (fun i => Fin (cell_of rows i 1)) indexer));
    ("high", Float64 (map (fun i => Fin (cell_of rows i 2)) indexer));
    ("open", Float64 (map (fun i => Fin (cell_of rows i 3)) indexer));
    ("close", Float64 (map (fun i => Fin (cell_of rows i 4)) indexer));
    ("volume", Float64 (map (fun i => Fin (cell_of rows i 5)) indexer)) ].

(** The rows named by [indexer] come in ascending order of time. *)
Definition ascending (rows : list (list Qc)) (indexer : list nat) : Prop :=
  StronglySorted (fun i j => (cell_of rows i 0 <= cell_of rows j 0)%Qc) indexer.

(** Position [i] may stand before position [j] when rows are ordered by
    [keys] under [leb]. *)
Definition before (K : Type) (leb : K -> K -> bool) (d : K) (keys : list K)
  (i j : nat) : Prop :=
  leb (nth i keys d) (nth j keys d) = true.

(** *** Shapes of a price series *)

Definition rising (qs : list Qc) : Prop :=
  forall i, (S i < length qs)%nat -> (nth i qs 0 < nth (S i) qs 0)%Qc.


Definition flat (c : Qc) (qs : list Qc) : Prop :=
  Forall (fun q => q = c) qs.

Definition within (lo hi q : Qc) : Prop := (lo <= q)%Qc /\ (q <= hi)%Qc.

(** *** The range of the arithmetic

    The code works on float64 numbers; the model on rationals.  The two
    agree up to rounding as long as no sum or difference leaves the range
    of the finite floats and no average of a non-zero sum falls below the
    smallest positive one. *)


Definition price_cap : Qc := Spec.qc_of_Z (2 ^ 1000).








(** *** The window of a fetch *)

(** The first and the last second of the years 1 to 9999, which bound a
    Python [datetime], and the least and the largest number of seconds a
    [timedelta] holds, all as seconds. *)
Definition datetime_min : Z := -62135596800.
Definition datetime_max : Z := 253402300799.
Definition timedelta_min : Z := -86399999913600.
Definition timedelta_max : Z := 86399999999999.

(** [end - timedelta(seconds=granularity * limit)] raises nothing: the
    span fits a [timedelta] and the start of the window is a
    [datetime]. *)
Definition window_fits (env : Runtime.Env) (w : Runtime.World) (granularity limit : Z)
  : Prop :=
  (timedelta_min <= granularity * limit <= timedelta_max)%Z
  /\ (datetime_min <= Runtime.clock env (Runtime.clock_reads w) - granularity * limit
      <= datetime_max)%Z.

(** *** Effects of a computation on the logs *)

(** The chat request of a run over the frame [df]. *)
Definition chat_request_for (env : Runtime.Env) (df : DataFrame) : Runtime.ChatRequest :=
  Spec.chat_request env Main.PROMPT (Pandas.to_dict_records (Pandas.tail 100 df)).

(** The text of the message [main] returns for an analysis, at the second
    reading of the clock after the state [w]. *)
Definition message_of (env : Runtime.Env) (w : Runtime.World) (analysis : option string)
  : string :=
  Runtime.str_opt analysis ++ nl ++ Main.rule ++ nl ++ " End analysis at "
  ++ Runtime.strftime_local env (Runtime.clock env (S (Runtime.clock_reads w))).

(** *** Sample inputs *)


Definition level : list Qc :=
  map Spec.qc_of_Z [7; 7; 7; 7; 7; 7; 7; 7; 7; 7; 7; 7; 7; 7; 7; 7; 7; 7; 7; 7; 7]%Z.

(** A frame without a close column, and one whose close column holds
    instants. *)
Definition frame_without_close : DataFrame :=
  [ ("time", Datetime64 [Some (Spec.qc_of_Z 0)]); ("open", Float64 [F.of_Z 1]) ].

Definition frame_with_dated_close : DataFrame :=
  [ ("time", Datetime64 [Some (Spec.qc_of_Z 0)]);
    ("close", Datetime64 [Some (Spec.qc_of_Z 0)]) ].

(** A .env file in the working directory that sets both key names. *)
Definition dotenv_with_keys : ResistanceSupport.DotEnv :=
  {| ResistanceSupport.in_cwd := true;
     ResistanceSupport.variables :=
       [("OPEN_API_KEY", "sk-from-file"); ("OPENAI_API_KEY", "sk-other")] |}.

Definition no_dotenv : ResistanceSupport.DotEnv :=
  {| ResistanceSupport.in_cwd := false; ResistanceSupport.variables := [] |}.


(** The candles a run fetches from the sample exchange, and the same
    frame with its indicators. *)
Definition fetched_zigzag : DataFrame :=
  match snd (Main.get_coinbase_candles Main.symbol Main.granularity Main.limit
               Samples.env_ok Samples.world_with_page) with
  | inr df => df
  | inl _ => []
  end.

Definition enriched_zigzag : DataFrame :=
  match Main.add_indicators fetched_zigzag with
  | inr df => df
  | inl _ => []
  end.

(** One hundred and twenty closes, 1 to 120, and the frame of their
    candles with its indicators. *)
Definition ramp : list Qc :=
  map (fun i => Spec.qc_of_nat (S i)) (seq 0 120).

Definition enriched_ramp : DataFrame :=
  match Main.add_indicators (Samples.frame_of_closes ramp) with
  | inr df => df
  | inl _ => []
  end.

End Props.

Open Scope list_scope.

(* ================================================================= *)
(** ** Cells *)

Section CellFacts.

Lemma eqb_eq (x y : float) : F.eqb x y = true -> x = y.
Proof.
  destruct x, y; simpl; try discriminate; try reflexivity.
  intro H. apply Qeq_bool_eq in H. f_equal. now apply Qc_is_canon.
Qed.

Lemma sgn_pos (a : Qc) : (0 < a)%Qc -> F.sgn a = Gt.
Proof.
  intro H. unfold F.sgn. now apply Qcgt_alt.
Qed.


Lemma qc_of_nat_pos (n : nat) : (0 < n)%nat -> (0 < Spec.qc_of_nat n)%Qc.
Proof.
  intro H. unfold Spec.qc_of_nat, Qclt.
  change (this (Q2Qc (inject_Z (Z.of_nat n)))) with (Qred (inject_Z (Z.of_nat n))).
  change (this 0%Qc) with 0%Q.
  rewrite Qred_correct. unfold Qlt. simpl. lia.
Qed.

Lemma of_nat_fin (n : nat) : F.of_nat n = Fin (Spec.qc_of_nat n).
Proof. reflexivity. Qed.

Lemma div_fin_pos (a b : Qc) : (0 < b)%Qc -> F.div (Fin a) (Fin b) = Fin (a / b)%Qc.
Proof. intro H. simpl. now rewrite (sgn_pos H). Qed.

End CellFacts.


(* ================================================================= *)
(** ** Slices and the online rolling mean *)

Section RollingMean.

Import Pandas Spec.

Lemma firstn_add {A} (n m : nat) (l : list A) :
  firstn (n + m) l = firstn n l ++ firstn m (skipn n l).
Proof.
  revert l. induction n as [|n IH]; intros [|x l]; simpl; auto.
  - now rewrite firstn_nil.
  - now rewrite IH.
Qed.

Lemma slice_map {A B} (f : A -> B) (a b : nat) (l : list A) :
  slice a b (map f l) = map f (slice a b l).
Proof. unfold slice. now rewrite skipn_map, firstn_map. Qed.

Lemma slice_length {A} (a b : nat) (l : list A) :
  (b <= length l)%nat -> length (slice a b l) = (b - a)%nat.
Proof. intro H. unfold slice. rewrite length_firstn, length_skipn. lia. Qed.

Lemma slice_split {A} (a b c : nat) (l : list A) :
  (a <= b)%nat -> (b <= c)%nat -> slice a c l = slice a b l ++ slice b c l.
Proof.
  intros Hab Hbc. unfold slice.
  replace (c - a)%nat with ((b - a) + (c - b))%nat by lia.
  rewrite firstn_add, skipn_skipn.
  now replace (b - a + a)%nat with b by lia.
Qed.

Lemma slice_nth {A} (d : A) (a b : nat) (l : list A) :
  (b <= length l)%nat -> slice a b l = map (fun k => nth k l d) (seq a (b - a)).
Proof.
  intro Hb. apply nth_ext with (d := d) (d' := d).
  - rewrite length_map, length_seq. now apply slice_length.
  - intros n Hn. rewrite slice_length in Hn by assumption.
    unfold slice. rewrite nth_firstn.
    destruct (Nat.ltb_spec n (b - a)) as [_|Hge]; [|lia].
    rewrite nth_skipn.
    rewrite (nth_indep (map (fun k => nth k l d) (seq a (b - a))) d
               ((fun k => nth k l d) 0%nat))
      by (rewrite length_map, length_seq; lia).
    rewrite (map_nth (fun k => nth k l d)), seq_nth by lia.
    reflexivity.
Qed.

Lemma qsum_app (l1 l2 : list Qc) : qsum (l1 ++ l2) = (qsum l1 + qsum l2)%Qc.
Proof.
  induction l1 as [|x l1 IH]; simpl.
  - now rewrite Qcplus_0_l.
  - rewrite IH. ring.
Qed.

Lemma prep_fin (qs : list Qc) : map prep_value (fin qs) = fin qs.
Proof. unfold fin. rewrite map_map. now apply map_ext. Qed.

Lemma fold_add_mean (l : list Qc) (n : nat) (q : Qc) :
  fold_left add_mean (fin l) {| m_nobs := n; sum_x := Fin q |}
  = {| m_nobs := n + length l; sum_x := Fin (q + qsum l) |}.
Proof.
  revert n q. induction l as [|x l IH]; intros n q; simpl.
  - f_equal; [lia | f_equal; ring].
  - unfold add_mean at 2. simpl. rewrite IH. f_equal; [lia | f_equal; ring].
Qed.

Lemma fold_remove_mean (l : list Qc) (n : nat) (q : Qc) :
  fold_left remove_mean (fin l) {| m_nobs := n; sum_x := Fin q |}
  = {| m_nobs := n - length l; sum_x := Fin (q - qsum l) |}.
Proof.
  revert n q. induction l as [|x l IH]; intros n q; simpl.
  - f_equal; [lia | f_equal; ring].
  - unfold remove_mean at 2. simpl. rewrite IH. f_equal; [lia | f_equal; ring].
Qed.

Lemma roll_mean_step_first (w : nat) (qs : list Qc) (st : mean_state) :
  roll_mean_step w (fin qs) st 0 = summary (win w 0 qs).
Proof.
  unfold roll_mean_step. simpl orb. cbv iota.
  unfold fin. rewrite slice_map. fold (fin (slice (start w 0) (end_ 0) qs)).
  unfold mean_init, F.zero. rewrite fold_add_mean.
  unfold summary, win. f_equal. f_equal. ring.
Qed.

Lemma roll_mean_step_next (w : nat) (qs : list Qc) (i : nat) :
  (1 <= i)%nat -> (i < length qs)%nat ->
  roll_mean_step w (fin qs) (summary (win w (i - 1) qs)) i = summary (win w i qs).
Proof.
  intros Hi Hlen. unfold roll_mean_step.
  destruct (Nat.eqb_spec i 0) as [->|_]; [lia|]. simpl orb.
  unfold fin. rewrite !slice_map.
  destruct (Nat.leb_spec (end_ (i - 1)) (start w i)) as [Hle|Hgt].
  - fold (fin (slice (start w i) (end_ i) qs)).
    unfold mean_init, F.zero. rewrite fold_add_mean.
    unfold summary, win. f_equal. f_equal. ring.
  - fold (fin (slice (start w (i - 1)) (start w i) qs)).
    fold (fin (slice (end_ (i - 1)) (end_ i) qs)).
    unfold summary at 1. rewrite fold_remove_mean, fold_add_mean.
    unfold summary, win, start, end_ in *.
    assert (Hsplit1 : slice (i - 1 + 1 - w) (i - 1 + 1) qs
              = slice (i - 1 + 1 - w) (i + 1 - w) qs ++ slice (i + 1 - w) (i - 1 + 1) qs)
      by (apply slice_split; lia).
    assert (Hsplit2 : slice (i + 1 - w) (i + 1) qs
              = slice (i + 1 - w) (i - 1 + 1) qs ++ slice (i - 1 + 1) (i + 1) qs)
      by (apply slice_split; lia).
    rewrite Hsplit2, Hsplit1, !qsum_app, !length_app.
    rewrite !slice_length by lia.
    f_equal; [lia | f_equal; ring].
Qed.

Lemma roll_mean_loop_spec (w minp : nat) (qs : list Qc) :
  forall (n i : nat) (st : mean_state),
    (i + n <= length qs)%nat ->
    (i = 0%nat \/ ((1 <= i)%nat /\ st = summary (win w (i - 1) qs))) ->
    roll_mean_loop w minp (fin qs) st (seq i n)
    = map (fun j => calc_mean minp (summary (win w j qs))) (seq i n).
Proof.
  induction n as [|n IH]; intros i st Hlen Hst; [reflexivity|].
  simpl seq. simpl roll_mean_loop. simpl map.
  assert (Hstep : roll_mean_step w (fin qs) st i = summary (win w i qs)).
  { destruct Hst as [->|[Hi ->]].
    - apply roll_mean_step_first.
    - apply roll_mean_step_next; lia. }
  rewrite Hstep. f_equal.
  apply IH; [lia|]. right. split; [lia|].
  now replace (S i - 1)%nat with i by lia.
Qed.

Lemma rolling_mean_fin (w : nat) (qs : list Qc) :
  rolling_mean w (fin qs)
  = map (fun j => calc_mean w (summary (win w j qs))) (seq 0 (length qs)).
Proof.
  unfold rolling_mean. rewrite prep_fin.
  replace (length (fin qs)) with (length qs) by (unfold fin; now rewrite length_map).
  apply roll_mean_loop_spec; [lia | now left].
Qed.

Lemma rolling_mean_length (w : nat) (s : Series) :
  length (rolling_mean w s) = length s.
Proof.
  unfold rolling_mean.
  generalize (map prep_value s) mean_init (seq 0 (length s)) (length_seq (length s) 0).
  intros values st rows. revert st. generalize (length s) as n.
  intros n st. revert n st. induction rows as [|i rows IH]; intros n st Hn; simpl in *.
  - congruence.
  - destruct n as [|n]; [discriminate|]. f_equal. apply IH. congruence.
Qed.

Lemma calc_mean_summary (w : nat) (l : list Qc) :
  calc_mean w (summary l)
  = if ((w <=? length l) && (0 <? length l))%nat
    then Fin (arithmetic_mean l) else NaN.
Proof.
  unfold calc_mean, summary. cbn [m_nobs sum_x].
  destruct (w <=? length l)%nat; cbn [andb]; [|reflexivity].
  destruct (Nat.ltb_spec 0 (length l)) as [Hpos|]; [|reflexivity].
  rewrite of_nat_fin. now rewrite (div_fin_pos _ (qc_of_nat_pos Hpos)).
Qed.

Lemma win_last_values (w i : nat) (qs : list Qc) :
  (w <= i + 1)%nat -> (i < length qs)%nat -> win w i qs = last_values w i qs.
Proof.
  intros Hw Hi. unfold win, last_values, start, end_.
  rewrite (slice_nth 0%Qc) by lia.
  now replace (i + 1 - (i + 1 - w))%nat with w by lia.
Qed.

(** Row [i] of a rolling mean over finite values: missing until the window
    is full, then the mean of the last [w] values. *)
Lemma rolling_mean_get (w : nat) (qs : list Qc) (i : nat) :
  (1 <= w)%nat -> (i < length qs)%nat ->
  get (rolling_mean w (fin qs)) i
  = if (w <=? i + 1)%nat then Fin (arithmetic_mean (last_values w i qs)) else NaN.
Proof.
  intros Hw Hi. unfold get. rewrite rolling_mean_fin.
  rewrite (nth_indep _ NaN ((fun j => calc_mean w (summary (win w j qs))) 0%nat))
    by (rewrite length_map, length_seq; lia).
  rewrite (map_nth (fun j => calc_mean w (summary (win w j qs)))), seq_nth by lia.
  simpl plus. rewrite calc_mean_summary.
  assert (Hlen : length (win w i qs) = Nat.min (i + 1) w).
  { unfold win, start, end_. rewrite slice_length by lia. lia. }
  rewrite Hlen.
  destruct (Nat.leb_spec w (i + 1)) as [Hfull|Hshort].
  - rewrite win_last_values by assumption.
    replace (w <=? Nat.min (i + 1) w)%nat with true by (symmetry; apply Nat.leb_le; lia).
    replace (0 <? Nat.min (i + 1) w)%nat with true by (symmetry; apply Nat.ltb_lt; lia).
    reflexivity.
  - replace (w <=? Nat.min (i + 1) w)%nat with false by (symmetry; apply Nat.leb_gt; lia).
    reflexivity.
Qed.

End RollingMean.

(* ================================================================= *)
(** ** The exponentially weighted kernel on finite values *)

Section Ewm.

Import Pandas Spec.

Lemma ewm_step_fin (alpha e x : Qc) (n : nat) :
  ewm_step (Fin alpha) {| weighted := Fin e; old_wt := F.one; nobs := n |} (Fin x)
  = {| weighted := Fin (alpha * x + (1 - alpha) * e)%Qc; old_wt := F.one;
       nobs := n + 1 |}.
Proof.
  unfold ewm_step. cbn [weighted old_wt nobs F.is_obs F.one F.sub F.opp F.add F.mul F.neqb].
  f_equal.
  destruct (e ?= x)%Qc eqn:Hcmp.
  - apply Qceq_alt in Hcmp. subst x. f_equal. ring.
  - assert (Hone : (1 * (1 + - alpha) + alpha)%Qc = 1%Qc) by ring.
    unfold F.div. rewrite Hone. cbn. f_equal. field. discriminate.
  - assert (Hone : (1 * (1 + - alpha) + alpha)%Qc = 1%Qc) by ring.
    unfold F.div. rewrite Hone. cbn. f_equal. field. discriminate.
Qed.

Lemma ewm_loop_fin (alpha : Qc) (xs : list Qc) :
  forall (e : Qc) (n : nat),
    (1 <= n)%nat ->
    ewm_loop (Fin alpha) 1 {| weighted := Fin e; old_wt := F.one; nobs := n |} (fin xs)
    = fin (recursive_ewm_from alpha e xs).
Proof.
  induction xs as [|x xs IH]; intros e n Hn; [reflexivity|].
  simpl. rewrite ewm_step_fin. unfold ewm_output. cbn [nobs weighted].
  destruct (Nat.leb_spec 1 (n + 1)) as [_|Hbad]; [|lia].
  f_equal. apply IH. lia.
Qed.

Lemma alpha_of_span_eq (span : Z) :
  (0 <= span)%Z ->
  alpha_of_com (com_of_span (Q2Qc (inject_Z span))) = alpha_of_span span.
Proof.
  intro Hs. unfold alpha_of_com, com_of_span, alpha_of_span, qc_of_Z.
  assert (Hpos : (0 < Q2Qc (inject_Z span) + 1)%Qc).
  { unfold Qclt, Qcplus.
    change (this 0%Qc) with 0%Q.
    change (this (Q2Qc (Q2Qc (inject_Z span) + 1%Qc)))
      with (Qred (Qred (inject_Z span) + Qred 1)).
    rewrite !Qred_correct. unfold Qlt, inject_Z. simpl. lia. }
  assert (Hne : (Q2Qc (inject_Z span) + 1)%Qc <> 0%Qc)
    by (intro H; rewrite H in Hpos; now apply Qclt_not_eq in Hpos).
  assert (Htwo : Q2Qc 2 = (1 + 1)%Qc) by (apply Qc_is_canon; reflexivity).
  rewrite Htwo. field. split; [exact Hne|].
  intro H. apply (f_equal this) in H. discriminate.
Qed.

(** On finite values the kernel computes the recursive mean. *)
Lemma ewm_mean_fin (span : Z) (qs : list Qc) :
  (0 <= span)%Z -> ewm_mean span (fin qs) = fin (recursive_ewm span qs).
Proof.
  intro Hs. unfold ewm_mean, recursive_ewm. rewrite prep_fin.
  destruct qs as [|x0 rest]; [reflexivity|].
  simpl fin. cbn [F.is_obs]. unfold ewm_output at 1. cbn [nobs weighted Nat.max Nat.leb].
  f_equal. rewrite (alpha_of_span_eq Hs). now apply ewm_loop_fin.
Qed.

Lemma ewm_mean_length (span : Z) (s : Series) : length (ewm_mean span s) = length s.
Proof.
  unfold ewm_mean. rewrite <- (length_map prep_value s).
  destruct (map prep_value s) as [|x0 rest]; [reflexivity|]. simpl. f_equal.
  generalize (Fin (alpha_of_com (com_of_span (Q2Qc (inject_Z span))))) as a.
  generalize {| weighted := x0; old_wt := F.one; nobs := if F.is_obs x0 then 1 else 0 |} as st.
  induction rest as [|x rest IH]; intros st a; simpl; [reflexivity|].
  f_equal. apply IH.
Qed.

Lemma recursive_ewm_from_length (alpha e : Qc) (xs : list Qc) :
  length (recursive_ewm_from alpha e xs) = length xs.
Proof. revert e. induction xs as [|x xs IH]; intro e; simpl; [reflexivity|]. now rewrite IH. Qed.

Lemma recursive_ewm_length (span : Z) (xs : list Qc) :
  length (recursive_ewm span xs) = length xs.
Proof. destruct xs; simpl; [reflexivity|]. now rewrite recursive_ewm_from_length. Qed.

(** The recurrence, read off position by position. *)
Lemma recursive_ewm_from_nth (alpha : Qc) (xs : list Qc) :
  forall (e : Qc) (i : nat),
    (i < length xs)%nat ->
    nth i (recursive_ewm_from alpha e xs) 0%Qc
    = (alpha * nth i xs 0 + (1 - alpha) * nth i (e :: recursive_ewm_from alpha e xs) 0)%Qc.
Proof.
  induction xs as [|x xs IH]; intros e i Hi; simpl in Hi; [lia|].
  destruct i as [|i]; [reflexivity|].
  simpl. rewrite IH by lia. reflexivity.
Qed.

Lemma recursive_ewm_succ (span : Z) (xs : list Qc) (i : nat) :
  (S i < length xs)%nat ->
  nth (S i) (recursive_ewm span xs) 0%Qc
  = (alpha_of_span span * nth (S i) xs 0
     + (1 - alpha_of_span span) * nth i (recursive_ewm span xs) 0)%Qc.
Proof.
  destruct xs as [|x0 rest]; simpl; [lia|]. intro Hi.
  rewrite recursive_ewm_from_nth by lia. reflexivity.
Qed.

End Ewm.

(* ================================================================= *)
(** ** Columns of a frame *)

Section Frames.

Import Pandas Spec.

Lemma lookup_setitem_same (df : DataFrame) (k : string) (c : Column) :
  lookup (setitem df k c) k = Some c.
Proof.
  induction df as [|[k0 c0] df IH]; simpl.
  - now rewrite String.eqb_refl.
  - destruct (String.eqb k0 k) eqn:E; simpl; rewrite E; [reflexivity | exact IH].
Qed.

Lemma lookup_setitem_other (df : DataFrame) (k k' : string) (c : Column) :
  String.eqb k k' = false -> lookup (setitem df k c) k' = lookup df k'.
Proof.
  intro Hne. induction df as [|[k0 c0] df IH]; simpl.
  - now rewrite Hne.
  - destruct (String.eqb k0 k) eqn:E; simpl.
    + apply String.eqb_eq in E. subst k0. now rewrite Hne.
    + now rewrite IH.
Qed.

Lemma columns_setitem_new (df : DataFrame) (k : string) (c : Column) :
  ~ In k (columns df) -> columns (setitem df k c) = columns df ++ [k].
Proof.
  unfold columns. induction df as [|[k0 c0] df IH]; simpl; intro Hnot; [reflexivity|].
  destruct (String.eqb k0 k) eqn:E.
  - apply String.eqb_eq in E. tauto.
  - simpl. f_equal. apply IH. tauto.
Qed.

Lemma Forall_setitem (P : string * Column -> Prop) (df : DataFrame) (k : string) (c : Column) :
  Forall P df -> P (k, c) -> Forall P (setitem df k c).
Proof.
  intros Hall Hnew. induction Hall as [|[k0 c0] df H0 Hall IH]; simpl.
  - now constructor.
  - destruct (String.eqb k0 k) eqn:E.
    + apply String.eqb_eq in E. subst k0. now constructor.
    + now constructor.
Qed.

Lemma close_of_setitem (df : DataFrame) (k : string) (c : Column) :
  String.eqb k "close" = false ->
  Main.close_of (setitem df k c) = Main.close_of df.
Proof.
  intro Hne. unfold Main.close_of, getitem. now rewrite lookup_setitem_other.
Qed.

Lemma add_indicators_ok (df : DataFrame) (close : Series) :
  Main.close_of df = Py.ok close ->
  Main.add_indicators df = Py.ok (enriched df close).
Proof.
  intro Hc. unfold Main.add_indicators. cbv zeta.
  rewrite Hc. cbn [Py.rbind Py.ok].
  rewrite close_of_setitem, Hc by reflexivity. cbn [Py.rbind Py.ok].
  rewrite !close_of_setitem, Hc by reflexivity. cbn [Py.rbind Py.ok].
  rewrite !close_of_setitem, Hc by reflexivity. cbn [Py.rbind Py.ok].
  unfold getitem at 1. rewrite lookup_setitem_same. cbn [Py.rbind Py.ok floats].
  reflexivity.
Qed.

Lemma add_indicators_raises (df : DataFrame) (e : Py.exn) :
  Main.close_of df = Py.raise_ e -> Main.add_indicators df = Py.raise_ e.
Proof. intro Hc. unfold Main.add_indicators. now rewrite Hc. Qed.

Lemma enriched_SMA20 (df : DataFrame) (close : Series) :
  column (Py.ok (enriched df close)) "SMA20" = Some (rolling_mean 20 close).
Proof.
  unfold column, Py.ok, enriched.
  rewrite !lookup_setitem_other by reflexivity. now rewrite lookup_setitem_same.
Qed.

Lemma enriched_EMA20 (df : DataFrame) (close : Series) :
  column (Py.ok (enriched df close)) "EMA20" = Some (ewm_mean 20 close).
Proof.
  unfold column, Py.ok, enriched.
  rewrite !lookup_setitem_other by reflexivity. now rewrite lookup_setitem_same.
Qed.

Lemma enriched_RSI (df : DataFrame) (close : Series) :
  column (Py.ok (enriched df close)) "RSI" = Some (Main.rsi (Main.rsi_vars close)).
Proof.
  unfold column, Py.ok, enriched.
  rewrite !lookup_setitem_other by reflexivity. now rewrite lookup_setitem_same.
Qed.

Lemma enriched_MACD (df : DataFrame) (close : Series) :
  column (Py.ok (enriched df close)) "MACD"
  = Some (Pandas.sub (Main.short_ema close) (Main.long_ema close)).
Proof.
  unfold column, Py.ok, enriched.
  rewrite !lookup_setitem_other by reflexivity. now rewrite lookup_setitem_same.
Qed.

Lemma enriched_Signal (df : DataFrame) (close : Series) :
  column (Py.ok (enriched df close)) "Signal"
  = Some (ewm_mean 9 (Pandas.sub (Main.short_ema close) (Main.long_ema close))).
Proof.
  unfold column, Py.ok, enriched. now rewrite lookup_setitem_same.
Qed.

Lemma enriched_other (df : DataFrame) (close : Series) (k : string) :
  ~ In k indicator_columns -> lookup (enriched df close) k = lookup df k.
Proof.
  intro Hnot. unfold enriched, indicator_columns in *. simpl in Hnot.
  assert (Hne : forall name, name <> k -> String.eqb name k = false)
    by (intros name Hn; now apply String.eqb_neq).
  rewrite !lookup_setitem_other; [reflexivity | | | | | ]; apply Hne; tauto.
Qed.

End Frames.

(* ================================================================= *)
(** ** The RSI lines *)

Section Rsi.

Import Pandas Spec.

Lemma map2_length {A B C} (f : A -> B -> C) (xs : list A) (ys : list B) :
  length (map2 f xs ys) = Nat.min (length xs) (length ys).
Proof.
  revert ys. induction xs as [|x xs IH]; intros [|y ys]; simpl; auto.
Qed.

Lemma get_map (f : float -> float) (s : Series) (i : nat) :
  (i < length s)%nat -> get (map f s) i = f (get s i).
Proof.
  intro Hi. unfold get.
  rewrite (nth_indep (map f s) NaN (f NaN)) by (now rewrite length_map).
  apply map_nth.
Qed.

Lemma get_map2 (f : float -> float -> float) (a b : Series) (i : nat) :
  (i < length a)%nat -> (i < length b)%nat ->
  get (map2 f a b) i = f (get a i) (get b i).
Proof.
  unfold get. revert a b. induction i as [|i IH]; intros [|x a] [|y b]; simpl; try lia.
  - reflexivity.
  - intros Ha Hb. apply IH; lia.
Qed.

Lemma get_fin (qs : list Qc) (i : nat) :
  (i < length qs)%nat -> get (fin qs) i = Fin (nth i qs 0%Qc).
Proof.
  intro Hi. unfold get, fin.
  rewrite (nth_indep (map Fin qs) NaN (Fin 0%Qc)) by (now rewrite length_map).
  apply map_nth.
Qed.

Lemma fin_length (qs : list Qc) : length (fin qs) = length qs.
Proof. apply length_map. Qed.

Lemma sub_fin (a b : list Qc) : map2 F.sub (fin a) (fin b) = fin (map2 Qcminus a b).
Proof.
  revert b. induction a as [|x a IH]; intros [|y b]; simpl; auto.
  now rewrite IH.
Qed.

Lemma diff_fin (x : Qc) (rest : list Qc) :
  diff (fin (x :: rest)) = NaN :: fin (steps (x :: rest)).
Proof. unfold diff, steps. simpl. f_equal. apply (sub_fin rest (x :: rest)). Qed.

Lemma diff_length (s : Series) : length (diff s) = length s.
Proof.
  destruct s as [|x rest]; simpl; [reflexivity|].
  rewrite map2_length. simpl. f_equal. lia.
Qed.

Lemma where_gt_fin (ds : list Qc) :
  where_ (fin ds) (gt (fin ds) (F.of_Z 0)) (F.of_Z 0) = fin (map qpos ds).
Proof.
  induction ds as [|d ds IH]; [reflexivity|].
  change (where_ (fin (d :: ds)) (gt (fin (d :: ds)) (F.of_Z 0)) (F.of_Z 0))
    with ((if F.gtb (Fin d) (F.of_Z 0) then Fin d else F.of_Z 0)
            :: where_ (fin ds) (gt (fin ds) (F.of_Z 0)) (F.of_Z 0)).
  rewrite IH. simpl map. f_equal.
  unfold F.gtb, F.ltb, F.of_Z, qpos.
  change (Q2Qc (inject_Z 0)) with 0%Qc.
  destruct (0 ?= d)%Qc; reflexivity.
Qed.

Lemma opp_zero : F.opp (F.of_Z 0) = Fin 0%Qc.
Proof. apply eqb_eq. reflexivity. Qed.

Lemma neg_where_lt_fin (ds : list Qc) :
  neg (where_ (fin ds) (lt (fin ds) (F.of_Z 0)) (F.of_Z 0)) = fin (map qneg ds).
Proof.
  induction ds as [|d ds IH]; [reflexivity|].
  change (neg (where_ (fin (d :: ds)) (lt (fin (d :: ds)) (F.of_Z 0)) (F.of_Z 0)))
    with (F.opp (if F.ltb (Fin d) (F.of_Z 0) then Fin d else F.of_Z 0)
            :: neg (where_ (fin ds) (lt (fin ds) (F.of_Z 0)) (F.of_Z 0))).
  rewrite IH. simpl map. f_equal.
  unfold F.ltb, qneg. unfold F.of_Z at 1.
  change (Q2Qc (inject_Z 0)) with 0%Qc.
  destruct (d ?= 0)%Qc; try reflexivity; apply opp_zero.
Qed.

Lemma gain_fin (qs : list Qc) : Main.gain (Main.rsi_vars (fin qs)) = fin (gains qs).
Proof.
  unfold Main.rsi_vars. cbn [Main.gain].
  destruct qs as [|x rest]; [reflexivity|].
  rewrite diff_fin. unfold gains.
  change (where_ (NaN :: fin (steps (x :: rest)))
            (gt (NaN :: fin (steps (x :: rest))) (F.of_Z 0)) (F.of_Z 0))
    with (F.of_Z 0 :: where_ (fin (steps (x :: rest)))
                        (gt (fin (steps (x :: rest))) (F.of_Z 0)) (F.of_Z 0)).
  now rewrite where_gt_fin.
Qed.

Lemma loss_fin (qs : list Qc) : Main.loss (Main.rsi_vars (fin qs)) = fin (losses qs).
Proof.
  unfold Main.rsi_vars. cbn [Main.loss].
  destruct qs as [|x rest]; [reflexivity|].
  rewrite diff_fin. unfold losses.
  change (neg (where_ (NaN :: fin (steps (x :: rest)))
                 (lt (NaN :: fin (steps (x :: rest))) (F.of_Z 0)) (F.of_Z 0)))
    with (F.opp (F.of_Z 0) :: neg (where_ (fin (steps (x :: rest)))
                        (lt (fin (steps (x :: rest))) (F.of_Z 0)) (F.of_Z 0))).
  now rewrite neg_where_lt_fin, opp_zero.
Qed.

Lemma steps_length (qs : list Qc) : length (steps qs) = (length qs - 1)%nat.
Proof.
  unfold steps. rewrite map2_length. destruct qs; simpl; lia.
Qed.

Lemma gains_length (qs : list Qc) : length (gains qs) = length qs.
Proof.
  destruct qs as [|x rest]; [reflexivity|].
  unfold gains. simpl length. rewrite length_map, steps_length. simpl. lia.
Qed.

Lemma losses_length (qs : list Qc) : length (losses qs) = length qs.
Proof.
  destruct qs as [|x rest]; [reflexivity|].
  unfold losses. simpl length. rewrite length_map, steps_length. simpl. lia.
Qed.









Lemma rsi_cell_nan (y : float) : rsi_cell NaN y = NaN.
Proof. reflexivity. Qed.



Lemma rsi_cell_flat : rsi_cell (Fin 0%Qc) (Fin 0%Qc) = NaN.
Proof. reflexivity. Qed.

Lemma rsi_vars_lengths (c : Series) :
  length (Main.avg_gain (Main.rsi_vars c)) = length c
  /\ length (Main.avg_loss (Main.rsi_vars c)) = length c
  /\ length (Main.rs (Main.rsi_vars c)) = length c
  /\ length (Main.rsi (Main.rsi_vars c)) = length c.
Proof.
  unfold Main.rsi_vars.
  cbn [Main.avg_gain Main.avg_loss Main.rs Main.rsi].
  unfold rsub, rdiv, radd, div, neg, where_, gt, lt.
  rewrite !length_map, !map2_length, !rolling_mean_length, !length_map,
    !map2_length, !length_map, !diff_length.
  repeat split; lia.
Qed.

(** Every cell of the RSI column is computed from the two averages of its
    own row. *)
Lemma rsi_get (c : Series) (i : nat) :
  (i < length c)%nat ->
  get (Main.rs (Main.rsi_vars c)) i
  = F.div (get (Main.avg_gain (Main.rsi_vars c)) i) (get (Main.avg_loss (Main.rsi_vars c)) i)
  /\ get (Main.rsi (Main.rsi_vars c)) i
     = rsi_cell (get (Main.avg_gain (Main.rsi_vars c)) i)
                (get (Main.avg_loss (Main.rsi_vars c)) i).
Proof.
  intro Hi. destruct (rsi_vars_lengths c) as [Hg [Hl [Hrs _]]].
  assert (Hget : get (Main.rs (Main.rsi_vars c)) i
                 = F.div (get (Main.avg_gain (Main.rsi_vars c)) i)
                         (get (Main.avg_loss (Main.rsi_vars c)) i)).
  { change (Main.rs (Main.rsi_vars c))
      with (map2 F.div (Main.avg_gain (Main.rsi_vars c)) (Main.avg_loss (Main.rsi_vars c))).
    apply get_map2; lia. }
  split; [exact Hget|].
  change (Main.rsi (Main.rsi_vars c))
    with (map (F.sub (F.of_Z 100))
            (map (F.div (F.of_Z 100))
               (map (F.add (F.of_Z 1)) (Main.rs (Main.rsi_vars c))))).
  rewrite !get_map by (rewrite ?length_map; lia).
  now rewrite Hget.
Qed.

(** The two averages over finite closes, row by row. *)
Lemma avg_gain_get (qs : list Qc) (i : nat) :
  (i < length qs)%nat ->
  get (Main.avg_gain (Main.rsi_vars (fin qs))) i
  = if (14 <=? i + 1)%nat then Fin (arithmetic_mean (last_values 14 i (gains qs))) else NaN.
Proof.
  intro Hi.
  change (Main.avg_gain (Main.rsi_vars (fin qs)))
    with (rolling_mean 14 (Main.gain (Main.rsi_vars (fin qs)))).
  rewrite gain_fin. apply rolling_mean_get; [lia | now rewrite gains_length].
Qed.

Lemma avg_loss_get (qs : list Qc) (i : nat) :
  (i < length qs)%nat ->
  get (Main.avg_loss (Main.rsi_vars (fin qs))) i
  = if (14 <=? i + 1)%nat then Fin (arithmetic_mean (last_values 14 i (losses qs))) else NaN.
Proof.
  intro Hi.
  change (Main.avg_loss (Main.rsi_vars (fin qs)))
    with (rolling_mean 14 (Main.loss (Main.rsi_vars (fin qs)))).
  rewrite loss_fin. apply rolling_mean_get; [lia | now rewrite losses_length].
Qed.

End Rsi.

(* ================================================================= *)
(** ** The indicator columns *)

Section Indicators.

Import Pandas Spec.

Lemma ewm_fin_recurrence (span : Z) (xs : list Qc) :
  (0 <= span)%Z ->
  get (ewm_mean span (fin xs)) 0 = get (fin xs) 0
  /\ forall i, (S i < length xs)%nat ->
       get (ewm_mean span (fin xs)) (S i)
       = F.add (F.mul (Fin (alpha_of_span span)) (get (fin xs) (S i)))
               (F.mul (Fin (1 - alpha_of_span span)%Qc) (get (ewm_mean span (fin xs)) i)).
Proof.
  intro Hs. rewrite (ewm_mean_fin xs Hs). split.
  - destruct xs; reflexivity.
  - intros i Hi.
    rewrite !get_fin by (rewrite ?recursive_ewm_length; lia).
    cbn [F.mul F.add]. f_equal. now apply recursive_ewm_succ.
Qed.

Lemma ewm_fin_finite (span : Z) (xs : list Qc) (i : nat) :
  (0 <= span)%Z -> (i < length xs)%nat ->
  F.is_finite (get (ewm_mean span (fin xs)) i) = true.
Proof.
  intros Hs Hi. rewrite (ewm_mean_fin xs Hs), get_fin; [reflexivity|].
  now rewrite recursive_ewm_length.
Qed.

Lemma alpha_20 : alpha_of_span 20 = Q2Qc (2 # 21) /\ (1 - alpha_of_span 20)%Qc = Q2Qc (19 # 21).
Proof. split; apply Qc_is_canon; reflexivity. Qed.

Lemma alpha_9 : alpha_of_span 9 = Q2Qc (2 # 10) /\ (1 - alpha_of_span 9)%Qc = Q2Qc (8 # 10).
Proof. split; apply Qc_is_canon; reflexivity. Qed.

(** C4.  For a frame whose closes are a non-empty series of finite prices,
    the EMA20 column of [add_indicators] starts at the first close,
    [EMA20[0] = close[0]], follows
    [EMA20[i] = (2/21) * close[i] + (19/21) * EMA20[i-1]] at every later row,
    and has a finite value in every row.  As a whole the column is the
    recursive mean of span 20, whose factor is [2 / (20 + 1)]. *)
Theorem C4_ema20_recurrence (df : DataFrame) (qs : list Qc) :
  qs <> [] ->
  Main.close_of df = Py.ok (fin qs) ->
  exists ema,
    column (Main.add_indicators df) "EMA20" = Some ema
    /\ ema = fin (recursive_ewm 20 qs)
    /\ get ema 0 = get (fin qs) 0
    /\ (forall i, (S i < length qs)%nat ->
          get ema (S i)
          = F.add (F.mul (Fin (Q2Qc (2 # 21))) (get (fin qs) (S i)))
                  (F.mul (Fin (Q2Qc (19 # 21))) (get ema i)))
    /\ (forall i, (i < length qs)%nat -> F.is_finite (get ema i) = true).
Proof.
  intros _ Hc. exists (ewm_mean 20 (fin qs)).
  rewrite (add_indicators_ok _ Hc), enriched_EMA20.
  destruct (@ewm_fin_recurrence 20 qs) as [H0 Hrec]; [lia|].
  destruct alpha_20 as [Ha Hb]. rewrite Hb, Ha in Hrec.
  repeat split; try assumption.
  - apply ewm_mean_fin. lia.
  - intros i Hi. apply ewm_fin_finite; [lia | assumption].
Qed.

Lemma C4_ema20_recurrence_witness :
  Samples.zigzag <> []
  /\ Main.close_of (Samples.frame_of_closes Samples.zigzag) = Py.ok (fin Samples.zigzag)
  /\ exists ema,
       column (Main.add_indicators (Samples.frame_of_closes Samples.zigzag)) "EMA20"
       = Some ema
       /\ ema = fin (recursive_ewm 20 Samples.zigzag)
       /\ get ema 0 = get (fin Samples.zigzag) 0
       /\ (forall i, (S i < length Samples.zigzag)%nat ->
             get ema (S i)
             = F.add (F.mul (Fin (Q2Qc (2 # 21))) (get (fin Samples.zigzag) (S i)))
                     (F.mul (Fin (Q2Qc (19 # 21))) (get ema i)))
       /\ (forall i, (i < length Samples.zigzag)%nat -> F.is_finite (get ema i) = true).
Proof.
  split; [discriminate|]. split; [reflexivity|].
  apply (@C4_ema20_recurrence (Samples.frame_of_closes Samples.zigzag) Samples.zigzag);
    [discriminate | reflexivity].
Defined.

(** C5.  For a frame whose closes are a non-empty series of finite prices,
    every cell of the MACD column is [EMA12[i] - EMA26[i]], where EMA12 and
    EMA26 are the recursive means of the closes with spans 12 and 26, both
    starting at [close[0]]; and the Signal column is the recursive mean of
    the MACD column with span 9: [Signal[0] = MACD[0]] and
    [Signal[i] = (2/10) * MACD[i] + (8/10) * Signal[i-1]] afterwards. *)
Theorem C5_macd_and_signal (df : DataFrame) (qs : list Qc) :
  qs <> [] ->
  Main.close_of df = Py.ok (fin qs) ->
  exists macd signal,
    column (Main.add_indicators df) "MACD" = Some macd
    /\ column (Main.add_indicators df) "Signal" = Some signal
    /\ (forall i, (i < length qs)%nat ->
          get macd i
          = F.sub (Fin (nth i (recursive_ewm 12 qs) 0%Qc))
                  (Fin (nth i (recursive_ewm 26 qs) 0%Qc)))
    /\ nth 0 (recursive_ewm 12 qs) 0%Qc = nth 0 qs 0%Qc
    /\ nth 0 (recursive_ewm 26 qs) 0%Qc = nth 0 qs 0%Qc
    /\ get signal 0 = get macd 0
    /\ (forall i, (S i < length qs)%nat ->
          get signal (S i)
          = F.add (F.mul (Fin (Q2Qc (2 # 10))) (get macd (S i)))
                  (F.mul (Fin (Q2Qc (8 # 10))) (get signal i))).
Proof.
  intros Hne Hc.
  set (macd_q := map2 Qcminus (recursive_ewm 12 qs) (recursive_ewm 26 qs)).
  assert (Hmacd : Pandas.sub (Main.short_ema (fin qs)) (Main.long_ema (fin qs)) = fin macd_q).
  { unfold Main.short_ema, Main.long_ema, Pandas.sub.
    rewrite !ewm_mean_fin by lia. apply sub_fin. }
  assert (Hlen : length macd_q = length qs).
  { unfold macd_q. rewrite map2_length, !recursive_ewm_length. lia. }
  exists (fin macd_q), (ewm_mean 9 (fin macd_q)).
  rewrite (add_indicators_ok _ Hc), enriched_MACD, enriched_Signal, Hmacd.
  destruct (@ewm_fin_recurrence 9 macd_q) as [H0 Hrec]; [lia|].
  destruct alpha_9 as [Ha Hb]. rewrite Hb, Ha in Hrec.
  repeat split.
  - intros i Hi. unfold macd_q. rewrite <- sub_fin.
    rewrite get_map2 by (rewrite fin_length, recursive_ewm_length; lia).
    now rewrite !get_fin by (rewrite recursive_ewm_length; lia).
  - destruct qs; [contradiction | reflexivity].
  - destruct qs; [contradiction | reflexivity].
  - exact H0.
  - intros i Hi. apply Hrec. lia.
Qed.

Lemma C5_macd_and_signal_witness :
  Samples.zigzag <> []
  /\ Main.close_of (Samples.frame_of_closes Samples.zigzag) = Py.ok (fin Samples.zigzag)
  /\ exists macd signal,
       column (Main.add_indicators (Samples.frame_of_closes Samples.zigzag)) "MACD"
       = Some macd
       /\ column (Main.add_indicators (Samples.frame_of_closes Samples.zigzag)) "Signal"
          = Some signal
       /\ (forall i, (i < length Samples.zigzag)%nat ->
             get macd i
             = F.sub (Fin (nth i (recursive_ewm 12 Samples.zigzag) 0%Qc))
                     (Fin (nth i (recursive_ewm 26 Samples.zigzag) 0%Qc)))
       /\ nth 0 (recursive_ewm 12 Samples.zigzag) 0%Qc = nth 0 Samples.zigzag 0%Qc
       /\ nth 0 (recursive_ewm 26 Samples.zigzag) 0%Qc = nth 0 Samples.zigzag 0%Qc
       /\ get signal 0 = get macd 0
       /\ (forall i, (S i < length Samples.zigzag)%nat ->
             get signal (S i)
             = F.add (F.mul (Fin (Q2Qc (2 # 10))) (get macd (S i)))
                     (F.mul (Fin (Q2Qc (8 # 10))) (get signal i))).
Proof.
  split; [discriminate|]. split; [reflexivity|].
  apply (@C5_macd_and_signal (Samples.frame_of_closes Samples.zigzag) Samples.zigzag);
    [discriminate | reflexivity].
Defined.


(** C2.  For a candle series of [L >= 1] rows [add_indicators] returns a
    frame whose columns are the six candle columns followed by the five
    indicator columns, every column holding [L] cells; the time, low,
    high, open, close and volume columns are the ones of the input, cell
    for cell and in the same order. *)
Theorem C2_rows_and_candle_columns_kept (df : DataFrame) (L : nat) :
  (1 <= L)%nat ->
  CandleSeries df L ->
  exists out,
    Main.add_indicators df = Py.ok out
    /\ columns out = Main.candle_columns ++ indicator_columns
    /\ Forall (fun kc => col_len (snd kc) = L) out
    /\ nrows out = L
    /\ forall k, In k Main.candle_columns -> lookup out k = lookup df k.
Proof.
  intros _ [Hcols [Hlen [xs Hclose]]].
  assert (Hc : Main.close_of df = Py.ok xs)
    by (unfold Main.close_of, getitem; now rewrite Hclose).
  assert (Hxs : length xs = L).
  { clear Hcols Hc. induction df as [|[k0 c0] df IH]; simpl in Hclose; [discriminate|].
    inversion Hlen as [|? ? H0 Hrest]; subst.
    destruct (String.eqb k0 "close").
    - now inversion Hclose; subst.
    - now apply IH. }
  exists (enriched df xs).
  assert (Hout_cols : columns (enriched df xs) = Main.candle_columns ++ indicator_columns).
  { unfold enriched. cbv zeta.
    rewrite !columns_setitem_new.
    - rewrite Hcols. reflexivity.
    - rewrite Hcols. simpl. intuition discriminate.
    - rewrite columns_setitem_new; rewrite Hcols; simpl; intuition discriminate.
    - rewrite !columns_setitem_new; rewrite ?columns_setitem_new;
        rewrite ?Hcols; simpl; intuition discriminate.
    - rewrite !columns_setitem_new; rewrite ?columns_setitem_new;
        rewrite ?columns_setitem_new; rewrite ?Hcols; simpl; intuition discriminate.
    - rewrite !columns_setitem_new; rewrite ?columns_setitem_new;
        rewrite ?columns_setitem_new; rewrite ?columns_setitem_new;
        rewrite ?Hcols; simpl; intuition discriminate. }
  assert (Hout_len : Forall (fun kc => col_len (snd kc) = L) (enriched df xs)).
  { unfold enriched. cbv zeta.
    destruct (rsi_vars_lengths xs) as [_ [_ [_ Hrsi]]].
    repeat apply Forall_setitem; try assumption; cbn [snd col_len].
    - now rewrite rolling_mean_length.
    - now rewrite ewm_mean_length.
    - now rewrite Hrsi.
    - unfold Pandas.sub, Main.short_ema, Main.long_ema.
      rewrite map2_length, !ewm_mean_length. lia.
    - unfold Pandas.sub, Main.short_ema, Main.long_ema.
      rewrite ewm_mean_length, map2_length, !ewm_mean_length. lia. }
  split; [now apply add_indicators_ok|]. split; [exact Hout_cols|].
  split; [exact Hout_len|]. split.
  - destruct (enriched df xs) as [|[k0 c0] rest]; [discriminate|].
    now inversion Hout_len.
  - intros k Hk. apply enriched_other.
    unfold Main.candle_columns, indicator_columns in *. simpl in *.
    intuition (subst; discriminate).
Qed.

Lemma C2_rows_and_candle_columns_kept_witness :
  (1 <= 22)%nat
  /\ CandleSeries (Samples.frame_of_closes Samples.zigzag) 22
  /\ exists out,
       Main.add_indicators (Samples.frame_of_closes Samples.zigzag) = Py.ok out
       /\ columns out = Main.candle_columns ++ indicator_columns
       /\ Forall (fun kc => col_len (snd kc) = 22%nat) out
       /\ nrows out = 22%nat
       /\ forall k, In k Main.candle_columns ->
            lookup out k = lookup (Samples.frame_of_closes Samples.zigzag) k.
Proof.
  assert (Hcs : CandleSeries (Samples.frame_of_closes Samples.zigzag) 22).
  { split; [reflexivity|]. split.
    - repeat (constructor; [reflexivity|]). constructor.
    - now exists (fin Samples.zigzag). }
  split; [lia|]. split; [exact Hcs|].
  apply (@C2_rows_and_candle_columns_kept (Samples.frame_of_closes Samples.zigzag) 22);
    [lia | exact Hcs].
Defined.

(** C10.  The [add_indicators] of main.py and the [add_indicators] of
    src/resistance_support.py agree on every frame: both fail with the same
    exception or both return the same enriched frame. *)
Theorem C10_add_indicators_agree (df : DataFrame) :
  Main.add_indicators df = ResistanceSupport.add_indicators df.
Proof.
  unfold Main.add_indicators, ResistanceSupport.add_indicators.
  unfold Main.close_of, ResistanceSupport.close_of.
  unfold Main.short_ema, Main.long_ema, Main.rsi_vars. cbn [Main.rsi].
  reflexivity.
Qed.

End Indicators.

(* ================================================================= *)
(** ** Effects of a run *)

Section Effects.

Import Pandas Spec Runtime.

Lemma read_write_file (files : list (string * string)) (path data : string) :
  read_file (write_file files path data) path = Some data.
Proof.
  induction files as [|[p old] files IH]; simpl.
  - now rewrite String.eqb_refl.
  - destruct (String.eqb p path) eqn:E; simpl; rewrite E; [reflexivity | exact IH].
Qed.

Lemma keeps_fs_ret {A} (a : A) : keeps_fs (ret a).
Proof. intros env w. reflexivity. Qed.

Lemma keeps_fs_raise {A} (e : Py.exn) : keeps_fs (@raise A e).
Proof. intros env w. reflexivity. Qed.

Lemma keeps_fs_lift {A} (r : Py.result A) : keeps_fs (lift r).
Proof. intros env w. reflexivity. Qed.

Lemma keeps_fs_bind {A B} (m : M A) (k : A -> M B) :
  keeps_fs m -> (forall a, keeps_fs (k a)) -> keeps_fs (bind m k).
Proof.
  intros Hm Hk env w. unfold bind. specialize (Hm env w).
  destruct (m env w) as [w1 [e|a]]; simpl in *; [exact Hm|].
  now rewrite Hk.
Qed.

Lemma keeps_fs_now : keeps_fs now.
Proof. intros env w. reflexivity. Qed.

Lemma keeps_fs_requests_get (rq : Request) : keeps_fs (requests_get rq).
Proof. intros env w. reflexivity. Qed.

Lemma keeps_fs_os_getenv (name : string) : keeps_fs (os_getenv name).
Proof. intros env w. reflexivity. Qed.

Lemma keeps_fs_OpenAI (key : option string) : keeps_fs (OpenAI key).
Proof.
  intros env w. unfold OpenAI. destruct key; [reflexivity|].
  destruct (getenv env "OPENAI_API_KEY"); reflexivity.
Qed.

Lemma keeps_fs_str_of_records (rs : list Record_) : keeps_fs (str_of_records rs).
Proof. intros env w. reflexivity. Qed.

Lemma keeps_fs_strftime (t : Z) : keeps_fs (strftime t).
Proof. intros env w. reflexivity. Qed.

Lemma keeps_fs_chat (client : string) (rq : ChatRequest) :
  keeps_fs (chat_completions_create client rq).
Proof. intros env w. reflexivity. Qed.

Create HintDb keeps_fs_db.

#[local] Hint Resolve keeps_fs_ret keeps_fs_raise keeps_fs_lift keeps_fs_now
  keeps_fs_requests_get keeps_fs_os_getenv keeps_fs_OpenAI keeps_fs_str_of_records
  keeps_fs_strftime keeps_fs_chat : keeps_fs_db.

(** Walks down a chain of binds, leaving one goal per primitive. *)
Ltac keeps_fs_chain :=
  repeat (first [apply keeps_fs_bind; [|intro] | progress cbv zeta]);
  auto with keeps_fs_db;
  try (match goal with
       | |- keeps_fs (match ?l with _ => _ end) => destruct l; auto with keeps_fs_db
       end).

Lemma keeps_fs_get_coinbase_candles (symbol : string) (granularity limit : Z) :
  keeps_fs (Main.get_coinbase_candles symbol granularity limit).
Proof. unfold Main.get_coinbase_candles. keeps_fs_chain. Qed.

Lemma keeps_fs_analyze (df : DataFrame) (prompt : string) :
  keeps_fs (Main.analyze_with_chatgpt df prompt).
Proof. unfold Main.analyze_with_chatgpt, Main.API_KEY. keeps_fs_chain. Qed.

(** From the fetch to the formatted message nothing touches a file. *)
Lemma keeps_fs_main (symbol : string) (granularity limit : Z) :
  keeps_fs (Main.main symbol granularity limit).
Proof. unfold Main.main. keeps_fs_chain. Qed.

(** An error of the fetch is the error of [main]. *)
Lemma main_fetch_raises (symbol : string) (granularity limit : Z)
  (env : Env) (w : World) (e : Py.exn) :
  snd (Main.get_coinbase_candles symbol granularity limit env w) = inl e ->
  snd (Main.main symbol granularity limit env w) = inl e.
Proof.
  intro H. unfold Main.main, bind at 1.
  destruct (Main.get_coinbase_candles symbol granularity limit env w) as [w1 [e'|df]];
    simpl in *; congruence.
Qed.

End Effects.

(* ================================================================= *)
(** ** The fetch *)

Section Fetch.

Import Pandas Spec Runtime.

(** C8, as stated, fails for a status outside 2xx.  The exchange answers
    404 with its error object; the status is never looked at, the object
    has no entry under a candle column, and the caller receives a candle
    series without rows instead of an error. *)
Lemma C8_not_found_yields_candles :
  let rq := candles_request Samples.env_not_found Samples.world_with_page
              Main.symbol Main.granularity Main.limit in
  http_get Samples.env_not_found rq
  = Py.ok {| status_code := 404; json := Some (Py.Message "NotFound") |}
  /\ snd (Main.get_coinbase_candles Main.symbol Main.granularity Main.limit
            Samples.env_not_found Samples.world_with_page)
     = Py.ok no_candles.
Proof. split; reflexivity. Qed.

(** C8, amended.  A fetch raises when the request itself fails (the error
    of the HTTP client is passed on), when the body is empty or is not JSON,
    and when the body is a non-empty array whose longest row does not have
    six cells.  The HTTP status plays no part: the outcome is a function of
    the decoded body alone, and an error object of the exchange and an
    empty array both yield a candle series without rows. *)
Theorem C8_fetch_failures (env : Env) (w : World) (symbol : string) (granularity limit : Z) :
  let rq := candles_request env w symbol granularity limit in
  let out := snd (Main.get_coinbase_candles symbol granularity limit env w) in
  (forall e, http_get env rq = inl e -> out = inl e)
  /\ (forall resp, http_get env rq = inr resp -> out = candles_of_body (json resp))
  /\ candles_of_body None = inl Py.JSONDecodeError
  /\ (forall rows, rows <> [] -> width rows <> 6%nat ->
        candles_of_body (Some (Py.Rows rows)) = inl Py.ValueError)
  /\ (forall text, candles_of_body (Some (Py.Message text)) = inr no_candles)
  /\ candles_of_body (Some (Py.Rows [])) = inr no_candles.
Proof.
  intros rq out. subst rq out.
  unfold Main.get_coinbase_candles, candles_request, bind, now, requests_get, lift.
  cbn [clock_reads fs http_log chat_log fst snd].
  split; [|split; [|split; [|split; [|split]]]].
  - intros e He. now rewrite He.
  - intros resp Hr. rewrite Hr. unfold response_json, candles_of_body.
    destruct (json resp) as [data|]; [|reflexivity]. cbn [Py.ok Py.rbind].
    destruct (DataFrame_ data Main.candle_columns) as [e|df]; [reflexivity|].
    cbn [Py.rbind].
    destruct (Py.rbind (getitem df "time") to_datetime) as [e|time]; [reflexivity|].
    cbn [Py.rbind].
    destruct (sort_values (setitem df "time" time) "time"); reflexivity.
  - reflexivity.
  - intros rows Hne Hw. unfold candles_of_body, DataFrame_.
    destruct rows as [|r rows]; [contradiction|].
    cbn [Main.candle_columns length].
    destruct (Nat.eqb_spec (width (r :: rows)) 6) as [Heq|_]; [contradiction|].
    reflexivity.
  - reflexivity.
  - reflexivity.
Qed.

End Fetch.

(* ================================================================= *)
(** ** The page *)

Section Page.

Import Pandas Spec Runtime.


End Page.

(* ================================================================= *)
(** ** The summary request *)

Section Summarizer.

Import Pandas Spec Runtime.

Lemma map_add_seq (a s m : nat) : map (fun i => (a + i)%nat) (seq s m) = seq (a + s) m.
Proof.
  revert s. induction m as [|m IH]; intro s; simpl; [reflexivity|].
  f_equal. rewrite IH. f_equal. lia.
Qed.

Lemma cell_at_tail (n L : nat) (c : Column) (i : nat) :
  col_len c = L -> cell_at (col_tail n c) i = cell_at c ((L - n) + i).
Proof.
  intro Hl. destruct c as [xs|ts]; simpl in *; subst L; now rewrite nth_skipn.
Qed.

Lemma col_len_tail (n : nat) (c : Column) :
  col_len (col_tail n c) = Nat.min (col_len c) n.
Proof. destruct c as [xs|ts]; simpl; rewrite length_skipn; lia. Qed.

Lemma nrows_uniform (df : DataFrame) (L : nat) :
  Forall (fun kc => col_len (snd kc) = L) df -> df <> [] -> nrows df = L.
Proof.
  intros Hall Hne. destruct df as [|[k c] rest]; [contradiction|].
  now inversion Hall.
Qed.

Lemma to_dict_records_length (df : DataFrame) : length (to_dict_records df) = nrows df.
Proof. unfold to_dict_records. now rewrite length_map, length_seq. Qed.

(** The records of the tail are the last records of the frame. *)
Lemma to_dict_records_tail (n L : nat) (df : DataFrame) :
  Forall (fun kc => col_len (snd kc) = L) df ->
  to_dict_records (tail n df) = skipn (L - n) (to_dict_records df).
Proof.
  intro Hall. destruct df as [|[k c] rest] eqn:Hdf; [now rewrite skipn_nil|].
  rewrite <- Hdf in *.
  assert (Hrows : nrows df = L) by (apply nrows_uniform; [assumption | now rewrite Hdf]).
  assert (Htail : nrows (tail n df) = Nat.min L n).
  { rewrite Hdf. simpl. rewrite col_len_tail.
    rewrite Hdf in Hall. now inversion Hall; subst. }
  unfold to_dict_records. rewrite Htail, Hrows.
  rewrite skipn_map, skipn_seq.
  replace (L - (L - n))%nat with (Nat.min L n) by lia.
  replace (0 + (L - n))%nat with ((L - n) + 0)%nat by lia.
  rewrite <- (map_add_seq (L - n) 0 (Nat.min L n)), map_map.
  apply map_ext. intro i. unfold tail. rewrite map_map.
  apply map_ext_in. intros [k0 c0] Hin.
  rewrite Forall_forall in Hall. specialize (Hall _ Hin). simpl in Hall.
  now rewrite (@cell_at_tail n L c0 i Hall).
Qed.

End Summarizer.

(* ================================================================= *)
(** ** More on [add_indicators] *)

Section IndicatorsMore.

Import Pandas Spec Props.

Lemma setitem_same (df : DataFrame) (k : string) (c : Column) :
  lookup df k = Some c -> setitem df k c = df.
Proof.
  induction df as [|[k0 c0] df IH]; simpl; [discriminate|].
  destruct (String.eqb k0 k) eqn:E.
  - intro H. now inversion H.
  - intro H. now rewrite IH.
Qed.

Lemma enriched_close (df : DataFrame) (c : Series) :
  Main.close_of (enriched df c) = Main.close_of df.
Proof.
  unfold Main.close_of, getitem. rewrite enriched_other; [reflexivity|].
  simpl. intuition discriminate.
Qed.

Lemma enriched_twice (df : DataFrame) (c : Series) :
  enriched (enriched df c) c = enriched df c.
Proof.
  unfold enriched at 1. cbv zeta.
  rewrite (@setitem_same (enriched df c) "SMA20" (Float64 (rolling_mean 20 c))).
  2:{ unfold enriched. rewrite !lookup_setitem_other by reflexivity.
      apply lookup_setitem_same. }
  rewrite (@setitem_same (enriched df c) "EMA20" (Float64 (ewm_mean 20 c))).
  2:{ unfold enriched. rewrite !lookup_setitem_other by reflexivity.
      apply lookup_setitem_same. }
  rewrite (@setitem_same (enriched df c) "RSI" (Float64 (Main.rsi (Main.rsi_vars c)))).
  2:{ unfold enriched. rewrite !lookup_setitem_other by reflexivity.
      apply lookup_setitem_same. }
  rewrite (@setitem_same (enriched df c) "MACD" _).
  2:{ unfold enriched. rewrite !lookup_setitem_other by reflexivity.
      apply lookup_setitem_same. }
  apply setitem_same. unfold enriched. apply lookup_setitem_same.
Qed.

Lemma add_indicators_numeric (df out : DataFrame) :
  Main.add_indicators df = Py.ok out ->
  exists xs, lookup df "close" = Some (Float64 xs).
Proof.
  intro Hout. unfold Main.add_indicators in Hout. cbv zeta in Hout.
  unfold Main.close_of at 1, getitem in Hout.
  destruct (lookup df "close") as [[xs|ts]|]; [now exists xs | discriminate | discriminate].
Qed.

(** X4.  [add_indicators] returns a frame exactly when the frame has a
    numeric close column.  Without a close column it raises
    [KeyError("close")]; with a close column of instants it raises the
    error of a non-numeric aggregation. *)
Theorem X4_add_indicators_needs_numeric_close (df : DataFrame) :
  ((exists out, Main.add_indicators df = Py.ok out)
   <-> exists xs, lookup df "close" = Some (Float64 xs))
  /\ (lookup df "close" = None ->
      Main.add_indicators df = Py.raise_ (Py.KeyError "close"))
  /\ (forall ts, lookup df "close" = Some (Datetime64 ts) ->
      Main.add_indicators df = Py.raise_ Py.DataError).
Proof.
  split; [split|split].
  - intros [out Hout]. exact (add_indicators_numeric df Hout).
  - intros [xs Hxs]. exists (enriched df xs). apply add_indicators_ok.
    unfold Main.close_of, getitem. now rewrite Hxs.
  - intro Hnone. apply add_indicators_raises.
    unfold Main.close_of, getitem. now rewrite Hnone.
  - intros ts Hts. apply add_indicators_raises.
    unfold Main.close_of, getitem. now rewrite Hts.
Qed.

(** X5.  Running [add_indicators] on its own output changes nothing: the
    five columns are set again, in place, to the values they already
    hold. *)
Theorem X5_add_indicators_idempotent (df out : DataFrame) :
  Main.add_indicators df = Py.ok out ->
  Main.add_indicators out = Py.ok out.
Proof.
  intro Hout.
  destruct (add_indicators_numeric df Hout) as [xs Hxs].
  assert (Hc : Main.close_of df = Py.ok xs)
    by (unfold Main.close_of, getitem; now rewrite Hxs).
  rewrite (add_indicators_ok _ Hc) in Hout. inversion Hout; subst out.
  rewrite (@add_indicators_ok (enriched df xs) xs) by (now rewrite enriched_close).
  now rewrite enriched_twice.
Qed.

Lemma X5_add_indicators_idempotent_witness :
  Main.add_indicators (Samples.frame_of_closes Samples.zigzag)
  = Py.ok (enriched (Samples.frame_of_closes Samples.zigzag) (fin Samples.zigzag))
  /\ Main.add_indicators (enriched (Samples.frame_of_closes Samples.zigzag) (fin Samples.zigzag))
     = Py.ok (enriched (Samples.frame_of_closes Samples.zigzag) (fin Samples.zigzag)).
Proof.
  assert (H : Main.add_indicators (Samples.frame_of_closes Samples.zigzag)
              = Py.ok (enriched (Samples.frame_of_closes Samples.zigzag) (fin Samples.zigzag)))
    by (now apply add_indicators_ok).
  split; [exact H|].
  exact (@X5_add_indicators_idempotent _ _ H).
Defined.

End IndicatorsMore.

(* ================================================================= *)
(** ** What a run sends and touches *)

Section EffectsMore.

Import Pandas Spec Props Runtime.

(** The effects of one fetch. *)
Lemma fetch_effects
  (env : Env) (w : World) (symbol : string) (granularity limit : Z) :
  let run := Main.get_coinbase_candles symbol granularity limit env w in
  let rq := candles_request env w symbol granularity limit in
  http_log (fst run) = http_log w ++ [rq]
  /\ url rq = ("https://api.exchange.coinbase.com/products/" ++ symbol ++ "/candles")%string
  /\ end_param rq = clock env (clock_reads w)
  /\ (end_param rq - start_param rq = granularity * limit)%Z
  /\ clock_reads (fst run) = S (clock_reads w)
  /\ chat_log (fst run) = chat_log w
  /\ fs (fst run) = fs w.
Proof.
  intros run rq. subst run rq.
  unfold Main.get_coinbase_candles, candles_request, bind, now, requests_get, lift.
  cbn [clock_reads fs http_log chat_log fst snd url end_param start_param].
  destruct (http_get env _) as [e|resp]; cbn [fst].
  - repeat split; try reflexivity. lia.
  - destruct (response_json resp) as [e|data]; cbn [fst];
      [repeat split; try reflexivity; lia|].
    destruct (DataFrame_ data Main.candle_columns) as [e|df]; cbn [fst];
      [repeat split; try reflexivity; lia|].
    destruct (Py.rbind (getitem df "time") to_datetime) as [e|time]; cbn [fst];
      [repeat split; try reflexivity; lia|].
    destruct (sort_values (setitem df "time" time) "time") as [e|sorted]; cbn [fst];
      repeat split; try reflexivity; lia.
Qed.

(** What [analyze_with_chatgpt] does to the logs. *)
Lemma analyze_effects (env : Env) (w : World) (df : DataFrame) (prompt : string) :
  let w' := fst (Main.analyze_with_chatgpt df prompt env w) in
  http_log w' = http_log w
  /\ clock_reads w' = clock_reads w
  /\ fs w' = fs w
  /\ (chat_log w' = chat_log w
      \/ chat_log w'
         = chat_log w ++ [chat_request env prompt (to_dict_records (tail 100 df))]).
Proof.
  cbv zeta.
  unfold Main.analyze_with_chatgpt, Main.API_KEY, bind, os_getenv, OpenAI,
    str_of_records, chat_completions_create, chat_request.
  change ("gpt-" ++ Main.gpt_version)%string with "gpt-5".
  destruct (getenv env "OPEN_API_KEY") as [key|].
  - destruct (chat_create env key _) as [e|completion]; [now repeat split; auto|].
    destruct (choices completion); now repeat split; auto.
  - destruct (getenv env "OPENAI_API_KEY") as [key|]; [|now repeat split; auto].
    destruct (chat_create env key _) as [e|completion]; [now repeat split; auto|].
    destruct (choices completion); now repeat split; auto.
Qed.

Lemma read_write_other (files : list (string * string)) (path other data : string) :
  other <> path -> read_file (write_file files path data) other = read_file files other.
Proof.
  intro Hne. induction files as [|[p old] files IH]; simpl.
  - destruct (String.eqb_spec path other); [congruence | reflexivity].
  - destruct (String.eqb_spec p path) as [->|Hp]; simpl.
    + destruct (String.eqb_spec path other); [congruence | reflexivity].
    + now rewrite IH.
Qed.

(** What [main] does to the logs, by the outcome of the fetch. *)
Lemma main_effects (env : Env) (w : World) :
  let w' := fst (Main.main Main.symbol Main.granularity Main.limit env w) in
  http_log w' = http_log w ++ [candles_request env w Main.symbol Main.granularity Main.limit]
  /\ match snd (Main.get_coinbase_candles Main.symbol Main.granularity Main.limit env w) with
     | inl _ => chat_log w' = chat_log w
     | inr candles =>
         chat_log w' = chat_log w
         \/ exists out, Main.add_indicators candles = Py.ok out
                        /\ chat_log w' = chat_log w ++ [chat_request_for env out]
     end.
Proof.
  cbv zeta.
  destruct (fetch_effects env w Main.symbol Main.granularity Main.limit)
    as [Hhttp [_ [_ [_ [_ [Hchat _]]]]]].
  destruct (Main.main Main.symbol Main.granularity Main.limit env w) as [w' r] eqn:Hmain.
  cbn [fst]. unfold Main.main in Hmain. unfold bind at 1 in Hmain.
  destruct (Main.get_coinbase_candles Main.symbol Main.granularity Main.limit env w)
    as [w1 [e|candles]]; cbn [fst snd] in *.
  { inversion Hmain; subst. now split. }
  unfold bind at 1, lift in Hmain.
  destruct (Main.add_indicators candles) as [e|out].
  { inversion Hmain; subst. split; [assumption | now left]. }
  destruct (analyze_effects env w1 out Main.PROMPT) as [Ha [_ [_ Hb]]].
  unfold bind at 1 in Hmain.
  destruct (Main.analyze_with_chatgpt out Main.PROMPT env w1) as [w2 [e|analysis]];
    cbn [fst snd] in *.
  - inversion Hmain; subst. split; [congruence|]. destruct Hb as [Hb|Hb].
    + left. congruence.
    + right. exists out. split; [reflexivity|]. unfold chat_request_for. congruence.
  - unfold bind, now, strftime, ret in Hmain. inversion Hmain; subst.
    cbn [http_log chat_log].
    split; [congruence|]. destruct Hb as [Hb|Hb].
    + left. congruence.
    + right. exists out. split; [reflexivity|]. unfold chat_request_for. congruence.
Qed.

(** X10.  Every run of the script sends exactly one GET request.  It sends
    at most one chat request, and none unless the fetch returned candles
    and the indicators were added to them.  No file other than index.html
    is created or changed. *)
Theorem X10_run_effects (env : Env) (w : World) :
  let w' := fst (Main.script env w) in
  http_log w' = http_log w ++ [candles_request env w Main.symbol Main.granularity Main.limit]
  /\ match snd (Main.get_coinbase_candles Main.symbol Main.granularity Main.limit env w) with
     | inl _ => chat_log w' = chat_log w
     | inr candles =>
         chat_log w' = chat_log w
         \/ exists out, Main.add_indicators candles = Py.ok out
                        /\ chat_log w' = chat_log w ++ [chat_request_for env out]
     end
  /\ forall path, path <> "index.html"%string ->
       read_file (fs w') path = read_file (fs w) path.
Proof.
  cbv zeta.
  pose proof (main_effects env w) as Hm. cbv zeta in Hm.
  pose proof (keeps_fs_main Main.symbol Main.granularity Main.limit env w) as Hfs.
  assert (Hlogs :
    http_log (fst (Main.script env w))
    = http_log (fst (Main.main Main.symbol Main.granularity Main.limit env w))
    /\ chat_log (fst (Main.script env w))
       = chat_log (fst (Main.main Main.symbol Main.granularity Main.limit env w))
    /\ forall path, path <> "index.html"%string ->
         read_file (fs (fst (Main.script env w))) path = read_file (fs w) path).
  { destruct (Main.script env w) as [w' r] eqn:Hrun. cbn [fst].
    unfold Main.script, bind in Hrun.
    destruct (Main.main Main.symbol Main.granularity Main.limit env w) as [w1 [e|analysis]];
      cbn [fst snd] in *.
    { inversion Hrun; subst. repeat split. intros path _. now rewrite Hfs. }
    unfold open_w in Hrun. destruct (open_fails env "index.html").
    { inversion Hrun; subst. repeat split. intros path _. now rewrite Hfs. }
    unfold write_close in Hrun. cbn [fs clock_reads http_log chat_log] in Hrun.
    destruct (write_fails env "index.html" (Main.content analysis));
      inversion Hrun; subst; cbn [http_log chat_log fs]; repeat split;
      intros path Hp; now rewrite !read_write_other, Hfs by assumption. }
  destruct Hlogs as [Hh [Hc Hf]]. rewrite Hh, Hc. destruct Hm as [Hm1 Hm2].
  split; [exact Hm1|]. split; [exact Hm2 | exact Hf].
Qed.

End EffectsMore.

(* ================================================================= *)
(** ** The RSI of a trend *)

Section RsiTrends.

Import Pandas Spec Props.

Lemma nth_map2_minus (a b : list Qc) (i : nat) :
  (i < length a)%nat -> (i < length b)%nat ->
  nth i (map2 Qcminus a b) 0%Qc = (nth i a 0 - nth i b 0)%Qc.
Proof.
  revert a b. induction i as [|i IH]; intros [|x a] [|y b]; simpl; try lia.
  - reflexivity.
  - intros Ha Hb. apply IH; lia.
Qed.

Lemma steps_nth (qs : list Qc) (k : nat) :
  (S k < length qs)%nat ->
  nth k (steps qs) 0%Qc = (nth (S k) qs 0 - nth k qs 0)%Qc.
Proof.
  intro Hk. unfold steps. destruct qs as [|x rest]; simpl in *; [lia|].
  rewrite nth_map2_minus by (simpl; lia). reflexivity.
Qed.




(** Every step of a series satisfies what every pair of neighbours does. *)
Lemma steps_Forall (P : Qc -> Prop) (qs : list Qc) :
  (forall k, (S k < length qs)%nat -> P (nth (S k) qs 0 - nth k qs 0)%Qc) ->
  Forall P (steps qs).
Proof.
  intro H. apply Forall_forall. intros d Hd.
  destruct (In_nth _ _ 0%Qc Hd) as [k [Hk <-]].
  rewrite steps_length in Hk. rewrite steps_nth by lia. apply H. lia.
Qed.

Lemma gains_zero (qs : list Qc) :
  Forall (fun d => qpos d = 0%Qc) (steps qs) -> Forall (fun g => g = 0%Qc) (gains qs).
Proof.
  intro H. destruct qs as [|x rest]; [constructor|]. unfold gains.
  constructor; [reflexivity|]. apply Forall_forall. intros g Hg.
  apply in_map_iff in Hg as [d [<- Hd]]. rewrite Forall_forall in H. now apply H.
Qed.

Lemma losses_zero (qs : list Qc) :
  Forall (fun d => qneg d = 0%Qc) (steps qs) -> Forall (fun g => g = 0%Qc) (losses qs).
Proof.
  intro H. destruct qs as [|x rest]; [constructor|]. unfold losses.
  constructor; [reflexivity|]. apply Forall_forall. intros g Hg.
  apply in_map_iff in Hg as [d [<- Hd]]. rewrite Forall_forall in H. now apply H.
Qed.


Lemma mean_of_zeros (n i : nat) (l : list Qc) :
  Forall (fun g => g = 0%Qc) l -> arithmetic_mean (last_values n i l) = 0%Qc.
Proof.
  intro Hl. unfold arithmetic_mean.
  assert (Hsum : qsum (last_values n i l) = 0%Qc).
  { unfold last_values. induction (seq (i + 1 - n) n) as [|k ks IH]; [reflexivity|].
    simpl. rewrite IH.
    destruct (Nat.lt_ge_cases k (length l)) as [Hk|Hk].
    - rewrite Forall_forall in Hl. rewrite (Hl (nth k l 0%Qc)) by (now apply nth_In). ring.
    - rewrite nth_overflow by assumption. ring. }
  rewrite Hsum. unfold Qcdiv. apply Qcmult_0_l.
Qed.




(** The RSI cell of a row past the warm-up, from the two window means. *)
Lemma rsi_row (qs : list Qc) (i : nat) :
  (13 <= i)%nat -> (i < length qs)%nat ->
  get (Main.rsi (Main.rsi_vars (fin qs))) i
  = rsi_cell (Fin (arithmetic_mean (last_values 14 i (gains qs))))
             (Fin (arithmetic_mean (last_values 14 i (losses qs)))).
Proof.
  intros Hi Hlen.
  destruct (@rsi_get (fin qs) i) as [_ Hcell]; [now rewrite fin_length|].
  rewrite Hcell, avg_gain_get, avg_loss_get by assumption.
  destruct (Nat.leb_spec 14 (i + 1)) as [_|Hbad]; [reflexivity | lia].
Qed.

Lemma rsi_warmup (qs : list Qc) (i : nat) :
  (i < 13)%nat -> get (Main.rsi (Main.rsi_vars (fin qs))) i = NaN.
Proof.
  intro Hi. destruct (Nat.lt_ge_cases i (length qs)) as [Hin|Hout].
  - destruct (@rsi_get (fin qs) i) as [_ Hcell]; [now rewrite fin_length|].
    rewrite Hcell, avg_gain_get by assumption.
    destruct (Nat.leb_spec 14 (i + 1)) as [Hbad|_]; [lia|]. apply rsi_cell_nan.
  - unfold get. apply nth_overflow.
    destruct (rsi_vars_lengths (fin qs)) as [_ [_ [_ Hlen]]].
    rewrite Hlen, fin_length. lia.
Qed.


End RsiTrends.

(* ================================================================= *)
(** ** Averages stay between the lowest and the highest close *)

(** Turns a comparison of canonical rationals into one of plain
    rationals. *)
Ltac qc_to_q :=
  unfold Props.within, Qcle, Qclt in *;
  repeat (progress (unfold Qcplus, Qcminus, Qcmult, Qcopp, Qcdiv, Qcinv in *;
                    cbn [this Q2Qc] in *;
                    rewrite ?Qred_correct in * ));
  change (Qred 0) with 0%Q in *; change (Qred 1) with 1%Q in *.

Section Bounds.

Import Pandas Spec Props.

Lemma within_convex (alpha lo hi x p : Qc) :
  within 0 1 alpha -> within lo hi x -> within lo hi p ->
  within lo hi (alpha * x + (1 - alpha) * p)%Qc.
Proof.
  qc_to_q.
  generalize (this alpha) (this lo) (this hi) (this x) (this p).
  intros a l h y q [Ha0 Ha1] [Hx0 Hx1] [Hp0 Hp1].
  assert (H1 : (0 <= a * (y - l))%Q) by (apply Qmult_le_0_compat; lra).
  assert (H2 : (0 <= (1 - a) * (q - l))%Q) by (apply Qmult_le_0_compat; lra).
  assert (H3 : (0 <= a * (h - y))%Q) by (apply Qmult_le_0_compat; lra).
  assert (H4 : (0 <= (1 - a) * (h - q))%Q) by (apply Qmult_le_0_compat; lra).
  split; nra.
Qed.

Lemma recursive_ewm_from_within (alpha lo hi : Qc) (xs : list Qc) :
  within 0 1 alpha ->
  forall prev, within lo hi prev -> Forall (within lo hi) xs ->
               Forall (within lo hi) (recursive_ewm_from alpha prev xs).
Proof.
  intro Ha. induction xs as [|x xs IH]; intros prev Hp Hxs; simpl; [constructor|].
  inversion Hxs as [|? ? Hx Hrest]; subst.
  assert (He : within lo hi (alpha * x + (1 - alpha) * prev)%Qc)
    by (now apply within_convex).
  constructor; [exact He | now apply IH].
Qed.

Lemma alpha_unit (span : Z) : (1 <= span)%Z -> within 0 1 (alpha_of_span span).
Proof.
  intro Hs. unfold alpha_of_span, qc_of_Z. qc_to_q.
  assert (Hpos : (0 < inject_Z span + 1)%Q).
  { unfold Qlt, inject_Z. simpl. lia. }
  split.
  - apply Qle_shift_div_l; [assumption | rewrite Qmult_0_l; unfold Qle; simpl; lia].
  - apply Qle_shift_div_r; [assumption|].
    assert (Hone : (1 <= inject_Z span)%Q) by (unfold Qle, inject_Z; simpl; lia).
    revert Hone. generalize (inject_Z span). intros s Hone. lra.
Qed.

Lemma recursive_ewm_within (span : Z) (lo hi : Qc) (xs : list Qc) :
  (1 <= span)%Z -> Forall (within lo hi) xs -> Forall (within lo hi) (recursive_ewm span xs).
Proof.
  intros Hs Hxs. unfold recursive_ewm. destruct xs as [|x0 rest]; [constructor|].
  inversion Hxs as [|? ? H0 Hrest]; subst.
  constructor; [exact H0|].
  now apply recursive_ewm_from_within; [apply alpha_unit | |].
Qed.

Lemma qsum_within (lo hi : Qc) (l : list Qc) :
  Forall (within lo hi) l ->
  (qc_of_nat (length l) * lo <= qsum l)%Qc /\ (qsum l <= qc_of_nat (length l) * hi)%Qc.
Proof.
  induction 1 as [|x l [Hx0 Hx1] Hl [IH0 IH1]].
  - simpl. change (qc_of_nat 0) with 0%Qc. rewrite !Qcmult_0_l. split; apply Qcle_refl.
  - assert (Hn : qc_of_nat (length (x :: l)) = (1 + qc_of_nat (length l))%Qc).
    { unfold qc_of_nat. apply Qc_is_canon. unfold Qcplus. cbn [this Q2Qc].
      rewrite !Qred_correct. simpl length. rewrite Nat2Z.inj_succ.
      unfold Z.succ. rewrite inject_Z_plus. change (inject_Z 1) with 1%Q. ring. }
    rewrite Hn. simpl qsum.
    replace ((1 + qc_of_nat (length l)) * lo)%Qc with (lo + qc_of_nat (length l) * lo)%Qc by ring.
    replace ((1 + qc_of_nat (length l)) * hi)%Qc with (hi + qc_of_nat (length l) * hi)%Qc by ring.
    split; now apply Qcplus_le_compat.
Qed.

Lemma mean_within (lo hi : Qc) (l : list Qc) :
  l <> [] -> Forall (within lo hi) l -> within lo hi (arithmetic_mean l).
Proof.
  intros Hne Hl. destruct (qsum_within Hl) as [H0 H1].
  assert (Hn : (0 < qc_of_nat (length l))%Qc).
  { apply qc_of_nat_pos. destruct l; [contradiction | simpl; lia]. }
  unfold arithmetic_mean. revert H0 H1 Hn.
  generalize (qsum l) (qc_of_nat (length l)). intros s n H0 H1 Hn.
  unfold within, Qcle, Qclt, Qcdiv, Qcmult, Qcinv in *.
  change (this 0%Qc) with 0%Q in *. cbn [this Q2Qc] in *.
  rewrite !Qred_correct in *. split.
  - apply Qle_shift_div_l; [assumption|]. now rewrite Qmult_comm.
  - apply Qle_shift_div_r; [assumption|]. now rewrite Qmult_comm.
Qed.

Lemma last_values_within (lo hi : Qc) (n i : nat) (l : list Qc) :
  (n <= i + 1)%nat -> (i < length l)%nat ->
  Forall (within lo hi) l -> Forall (within lo hi) (last_values n i l).
Proof.
  intros Hn Hi Hl. unfold last_values. apply Forall_forall. intros x Hx.
  apply in_map_iff in Hx as [k [<- Hk]]. apply in_seq in Hk.
  rewrite Forall_forall in Hl. apply Hl, nth_In. lia.
Qed.

Lemma get_fin_within (lo hi : Qc) (l : list Qc) (i : nat) :
  Forall (within lo hi) l -> (i < length l)%nat ->
  exists e, get (fin l) i = Fin e /\ within lo hi e.
Proof.
  intros Hl Hi. exists (nth i l 0%Qc). split; [now apply get_fin|].
  rewrite Forall_forall in Hl. now apply Hl, nth_In.
Qed.

Lemma macd_fin (qs : list Qc) :
  Pandas.sub (Main.short_ema (fin qs)) (Main.long_ema (fin qs))
  = fin (map2 Qcminus (recursive_ewm 12 qs) (recursive_ewm 26 qs)).
Proof.
  unfold Main.short_ema, Main.long_ema, Pandas.sub.
  rewrite !ewm_mean_fin by lia. apply sub_fin.
Qed.

Lemma minus_within (lo hi a b : Qc) :
  within lo hi a -> within lo hi b -> within (lo - hi) (hi - lo) (a - b)%Qc.
Proof.
  unfold within, Qcle, Qcminus, Qcplus, Qcopp. cbn [this Q2Qc]. rewrite !Qred_correct.
  generalize (this lo) (this hi) (this a) (this b).
  intros l h x y [Ha0 Ha1] [Hb0 Hb1]. split; lra.
Qed.

Lemma macd_within (lo hi : Qc) (qs : list Qc) :
  Forall (within lo hi) qs ->
  Forall (within (lo - hi) (hi - lo))
    (map2 Qcminus (recursive_ewm 12 qs) (recursive_ewm 26 qs)).
Proof.
  intro Hqs.
  pose proof (@recursive_ewm_within 12 lo hi qs ltac:(lia) Hqs) as Hs.
  pose proof (@recursive_ewm_within 26 lo hi qs ltac:(lia) Hqs) as Hl.
  revert Hl. generalize (recursive_ewm 26 qs).
  induction Hs as [|a s Ha Hs IH]; intros [|b l] Hl; simpl; try constructor.
  - inversion Hl; subst. now apply minus_within.
  - inversion Hl; subst. now apply IH.
Qed.

(** Bounds on the cells of the three averaged columns, for closes between
    [lo] and [hi]. *)
Lemma averages_bounds (qs : list Qc) (lo hi : Qc) :
  Forall (within lo hi) qs ->
  (forall i, (i < length qs)%nat ->
     exists e, get (ewm_mean 20 (fin qs)) i = Fin e /\ within lo hi e)
  /\ (forall i, (19 <= i)%nat -> (i < length qs)%nat ->
        exists m, get (rolling_mean 20 (fin qs)) i = Fin m /\ within lo hi m)
  /\ (forall i, (i < length qs)%nat ->
        exists d, get (Pandas.sub (Main.short_ema (fin qs)) (Main.long_ema (fin qs))) i = Fin d
                  /\ within (lo - hi) (hi - lo) d).
Proof.
  intro Hqs. split; [|split].
  - intros i Hi. rewrite ewm_mean_fin by lia.
    apply get_fin_within.
    + apply recursive_ewm_within; [lia | assumption].
    + now rewrite recursive_ewm_length.
  - intros i Hi Hlen. rewrite rolling_mean_get by lia.
    destruct (Nat.leb_spec 20 (i + 1)) as [_|Hbad]; [|lia].
    eexists. split; [reflexivity|]. apply mean_within.
    + unfold last_values. discriminate.
    + apply last_values_within; [lia | assumption | assumption].
  - intros i Hi. rewrite macd_fin. apply get_fin_within.
    + now apply macd_within.
    + rewrite map2_length, !recursive_ewm_length. lia.
Qed.



End Bounds.

(* ================================================================= *)
(** ** A series that does not move *)

Section Flat.

Import Pandas Spec Props.

Lemma within_point (c e : Qc) : within c c e -> e = c.
Proof. intros [H0 H1]. now apply Qcle_antisym. Qed.

Lemma flat_within (c : Qc) (qs : list Qc) : flat c qs -> Forall (within c c) qs.
Proof.
  unfold flat. apply Forall_impl. intros q ->. split; apply Qcle_refl.
Qed.

Lemma flat_nth (c : Qc) (qs : list Qc) (k : nat) :
  flat c qs -> (k < length qs)%nat -> nth k qs 0%Qc = c.
Proof.
  intros Hf Hk. unfold flat in Hf. rewrite Forall_forall in Hf. now apply Hf, nth_In.
Qed.

Lemma flat_steps (c : Qc) (qs : list Qc) :
  flat c qs -> Forall (fun d => d = 0%Qc) (steps qs).
Proof.
  intro Hf. apply steps_Forall. intros k Hk.
  rewrite !(flat_nth Hf) by lia. ring.
Qed.

(** X8.  When every close equals [c], every cell of the EMA20 column is
    [c], every SMA20 cell from row 19 on is [c], every cell of the MACD and
    Signal columns is 0, and the RSI column is undefined in every row: a
    price that does not move gives 0/0 for the relative strength. *)
Theorem X8_indicators_of_flat_closes (df : DataFrame) (qs : list Qc) (c : Qc) :
  Main.close_of df = Py.ok (fin qs) ->
  flat c qs ->
  exists ema sma rsi macd signal,
    column (Main.add_indicators df) "EMA20" = Some ema
    /\ column (Main.add_indicators df) "SMA20" = Some sma
    /\ column (Main.add_indicators df) "RSI" = Some rsi
    /\ column (Main.add_indicators df) "MACD" = Some macd
    /\ column (Main.add_indicators df) "Signal" = Some signal
    /\ forall i, (i < length qs)%nat ->
         get ema i = Fin c
         /\ ((19 <= i)%nat -> get sma i = Fin c)
         /\ get rsi i = NaN
         /\ get macd i = Fin 0%Qc
         /\ get signal i = Fin 0%Qc.
Proof.
  intros Hc Hf.
  destruct (averages_bounds (flat_within Hf))
    as [Hema [Hsma Hmacd]].
  set (macd_q := map2 Qcminus (recursive_ewm 12 qs) (recursive_ewm 26 qs)).
  assert (Hzero : Forall (within 0 0) macd_q).
  { pose proof (macd_within (flat_within Hf)) as H.
    replace (c - c)%Qc with 0%Qc in H by ring. exact H. }
  exists (ewm_mean 20 (fin qs)), (rolling_mean 20 (fin qs)),
         (Main.rsi (Main.rsi_vars (fin qs))), (fin macd_q), (ewm_mean 9 (fin macd_q)).
  rewrite (add_indicators_ok _ Hc), enriched_EMA20, enriched_SMA20, enriched_RSI,
    enriched_MACD, enriched_Signal, macd_fin.
  repeat (split; [reflexivity|]).
  intros i Hi. split; [|split; [|split; [|split]]].
  - destruct (Hema i Hi) as [e [-> He]]. f_equal. now apply within_point.
  - intro H19. destruct (Hsma i H19 Hi) as [m [-> Hm]]. f_equal. now apply within_point.
  - destruct (Nat.lt_ge_cases i 13) as [Hw|Hw]; [now apply rsi_warmup|].
    rewrite rsi_row by assumption.
    rewrite (mean_of_zeros 14 i (l := gains qs)), (mean_of_zeros 14 i (l := losses qs)).
    + apply rsi_cell_flat.
    + apply losses_zero. eapply Forall_impl; [|exact (flat_steps Hf)].
      intros d ->. reflexivity.
    + apply gains_zero. eapply Forall_impl; [|exact (flat_steps Hf)].
      intros d ->. reflexivity.
  - destruct (@get_fin_within 0%Qc 0%Qc macd_q i) as [d [-> Hd]];
      [exact Hzero | unfold macd_q; rewrite map2_length, !recursive_ewm_length; lia |].
    f_equal. now apply within_point.
  - rewrite ewm_mean_fin by lia.
    destruct (@get_fin_within 0%Qc 0%Qc (recursive_ewm 9 macd_q) i) as [d [-> Hd]].
    + apply recursive_ewm_within; [lia | exact Hzero].
    + rewrite recursive_ewm_length. unfold macd_q.
      rewrite map2_length, !recursive_ewm_length. lia.
    + f_equal. now apply within_point.
Qed.

Lemma X8_indicators_of_flat_closes_witness :
  Main.close_of (Samples.frame_of_closes level) = Py.ok (fin level)
  /\ flat (qc_of_Z 7) level
  /\ exists ema sma rsi macd signal,
       column (Main.add_indicators (Samples.frame_of_closes level)) "EMA20" = Some ema
       /\ column (Main.add_indicators (Samples.frame_of_closes level)) "SMA20" = Some sma
       /\ column (Main.add_indicators (Samples.frame_of_closes level)) "RSI" = Some rsi
       /\ column (Main.add_indicators (Samples.frame_of_closes level)) "MACD" = Some macd
       /\ column (Main.add_indicators (Samples.frame_of_closes level)) "Signal" = Some signal
       /\ forall i, (i < length level)%nat ->
            get ema i = Fin (qc_of_Z 7)
            /\ ((19 <= i)%nat -> get sma i = Fin (qc_of_Z 7))
            /\ get rsi i = NaN
            /\ get macd i = Fin 0%Qc
            /\ get signal i = Fin 0%Qc.
Proof.
  assert (Hf : flat (qc_of_Z 7) level) by (unfold flat, level; repeat constructor).
  split; [reflexivity|]. split; [exact Hf|].
  exact (@X8_indicators_of_flat_closes (Samples.frame_of_closes level) level
           (qc_of_Z 7) eq_refl Hf).
Defined.

End Flat.

(* ================================================================= *)
(** ** Sorting by insertion *)

Section ArgSort.

Import Pandas.

Variable K : Type.
Variable leb : K -> K -> bool.
Variable d : K.
Variable keys : list K.

Hypothesis leb_total : forall a b, leb a b = false -> leb b a = true.
Hypothesis leb_trans : forall a b c, leb a b = true -> leb b c = true -> leb a c = true.

Local Abbreviation before := (Props.before leb d keys).

Lemma insert_by_perm (i : nat) (l : list nat) :
  Permutation (insert_by leb d keys i l) (i :: l).
Proof.
  induction l as [|j l IH]; simpl; [reflexivity|].
  destruct (leb (nth j keys d) (nth i keys d)); [|reflexivity].
  rewrite IH. apply perm_swap.
Qed.

Lemma insert_by_sorted (i : nat) (l : list nat) :
  StronglySorted before l -> StronglySorted before (insert_by leb d keys i l).
Proof.
  induction 1 as [|j l Hl IH Hj]; simpl.
  - constructor; constructor.
  - destruct (leb (nth j keys d) (nth i keys d)) eqn:E.
    + constructor; [exact IH|].
      apply Forall_forall. intros x Hx.
      apply (Permutation_in _ (insert_by_perm i l)) in Hx. destruct Hx as [<-|Hx].
      * exact E.
      * rewrite Forall_forall in Hj. now apply Hj.
    + apply leb_total in E.
      constructor; [now constructor|].
      constructor; [exact E|].
      apply Forall_forall. intros x Hx. rewrite Forall_forall in Hj.
      unfold Props.before. eapply leb_trans; [exact E | now apply Hj].
Qed.

Lemma fold_insert_perm (todo acc : list nat) :
  Permutation (fold_left (fun acc i => insert_by leb d keys i acc) todo acc) (todo ++ acc).
Proof.
  revert acc. induction todo as [|i todo IH]; intro acc; simpl; [reflexivity|].
  rewrite IH. rewrite insert_by_perm. symmetry. apply Permutation_middle.
Qed.

Lemma fold_insert_sorted (todo acc : list nat) :
  StronglySorted before acc ->
  StronglySorted before (fold_left (fun acc i => insert_by leb d keys i acc) todo acc).
Proof.
  revert acc. induction todo as [|i todo IH]; intros acc Hacc; simpl; [exact Hacc|].
  apply IH. now apply insert_by_sorted.
Qed.

(** [argsort] names every position once. *)
Lemma argsort_perm : Permutation (argsort leb d keys) (seq 0 (length keys)).
Proof. unfold argsort. rewrite fold_insert_perm. now rewrite app_nil_r. Qed.

(** [argsort] names the positions in ascending order of their keys. *)
Lemma argsort_sorted : StronglySorted before (argsort leb d keys).
Proof. unfold argsort. apply fold_insert_sorted. constructor. Qed.

End ArgSort.

(* ================================================================= *)
(** ** The candles a fetch returns *)

Section FetchMore.

Import Pandas Spec Props Runtime.

Lemma ts_leb_total (a b : Timestamp) : ts_leb a b = false -> ts_leb b a = true.
Proof.
  destruct a as [x|], b as [y|]; simpl; try discriminate; try reflexivity.
  unfold Qccompare. rewrite <- (Qcompare_antisym x y).
  destruct (x ?= y)%Q; simpl; try discriminate. reflexivity.
Qed.

Lemma ts_leb_Some (x y : Qc) : ts_leb (Some x) (Some y) = true <-> (x <= y)%Qc.
Proof.
  simpl. rewrite Qcle_alt. destruct (x ?= y)%Qc; split; try discriminate; try reflexivity;
    intro H; try reflexivity; now contradiction H.
Qed.

Lemma ts_leb_trans (a b c : Timestamp) :
  ts_leb a b = true -> ts_leb b c = true -> ts_leb a c = true.
Proof.
  destruct c as [z|]; [|destruct a; reflexivity].
  destruct b as [y|]; [|discriminate].
  destruct a as [x|]; [|discriminate].
  rewrite !ts_leb_Some. apply Qcle_trans.
Qed.

Lemma StronglySorted_weaken (R R' : nat -> nat -> Prop) (l : list nat) :
  (forall i j, In i l -> In j l -> R i j -> R' i j) ->
  StronglySorted R l -> StronglySorted R' l.
Proof.
  intros Himp Hs. induction Hs as [|i l Hl IH Hi]; [constructor|].
  constructor.
  - apply IH. intros a b Ha Hb. apply Himp; now right.
  - apply Forall_forall. intros j Hj. rewrite Forall_forall in Hi.
    apply Himp; [now left | now right | now apply Hi].
Qed.

Lemma width_six (rows : list (list Qc)) :
  rows <> [] -> Forall (fun r => length r = 6%nat) rows -> width rows = 6%nat.
Proof.
  intros Hne Hall. induction Hall as [|r rows Hr Hall IH]; [contradiction|].
  simpl. rewrite Hr. destruct rows as [|r' rows']; [reflexivity|].
  rewrite IH by discriminate. reflexivity.
Qed.

Lemma padded_cell_in (r : list Qc) (j : nat) :
  (j < length r)%nat -> padded_cell r j = Fin (nth j r 0%Qc).
Proof.
  intro Hj. unfold padded_cell.
  destruct (nth_error r j) as [q|] eqn:E.
  - now rewrite (nth_error_nth _ _ _ E).
  - apply nth_error_None in E. lia.
Qed.

Lemma padded_cell_nil (j : nat) : padded_cell [] j = NaN.
Proof. destruct j; reflexivity. Qed.

Lemma to_instants_rows (rows : list (list Qc)) :
  Forall candle_row_ok rows ->
  to_instants (map (fun r => padded_cell r 0) rows)
  = Py.ok (map (fun r => Some (nth 0 r 0%Qc)) rows).
Proof.
  induction 1 as [|r rows [Hlen Hb] Hall IH]; [reflexivity|].
  simpl map. rewrite padded_cell_in by lia. simpl. rewrite Hb, IH. reflexivity.
Qed.

(** The frame a fetch builds from rows, before and after the time column
    is converted. *)
Lemma frame_of_rows (r : list Qc) (rows : list (list Qc)) :
  width (r :: rows) = 6%nat ->
  DataFrame_ (Py.Rows (r :: rows)) Main.candle_columns
  = Py.ok [ ("time", Float64 (map (fun r => padded_cell r 0) (r :: rows)));
            ("low", Float64 (map (fun r => padded_cell r 1) (r :: rows)));
            ("high", Float64 (map (fun r => padded_cell r 2) (r :: rows)));
            ("open", Float64 (map (fun r => padded_cell r 3) (r :: rows)));
            ("close", Float64 (map (fun r => padded_cell r 4) (r :: rows)));
            ("volume", Float64 (map (fun r => padded_cell r 5) (r :: rows))) ].
Proof.
  intro Hw. unfold DataFrame_. cbn [Main.candle_columns length]. rewrite Hw. reflexivity.
Qed.

Lemma take_padded (rows : list (list Qc)) (indexer : list nat) (j : nat) :
  (j < 6)%nat ->
  Forall (fun r => length r = 6%nat) rows ->
  Forall (fun i => (i < length rows)%nat) indexer ->
  take NaN indexer (map (fun r => padded_cell r j) rows)
  = map (fun i => Fin (cell_of rows i j)) indexer.
Proof.
  intros Hj Hrows Hidx. unfold take. apply map_ext_in. intros i Hi.
  rewrite Forall_forall in Hidx. specialize (Hidx _ Hi).
  rewrite <- (padded_cell_nil j).
  rewrite (map_nth (fun r => padded_cell r j)).
  unfold cell_of. apply padded_cell_in.
  rewrite Forall_forall in Hrows. rewrite (Hrows (nth i rows [])) by (now apply nth_In).
  exact Hj.
Qed.

Lemma take_times (rows : list (list Qc)) (indexer : list nat) :
  Forall (fun i => (i < length rows)%nat) indexer ->
  take None indexer (map (fun r => Some (nth 0 r 0%Qc)) rows)
  = map (fun i => Some (cell_of rows i 0)) indexer.
Proof.
  intro Hidx. unfold take. apply map_ext_in. intros i Hi.
  rewrite Forall_forall in Hidx. specialize (Hidx _ Hi).
  rewrite (nth_indep _ None ((fun r => Some (nth 0 r 0%Qc)) [])) by (now rewrite length_map).
  now rewrite (map_nth (fun r => Some (nth 0 r 0%Qc))).
Qed.

(** X2.  When the exchange answers with a non-empty array of rows of six
    numbers whose times fit a timestamp, [get_coinbase_candles] returns
    exactly those rows, each once, in ascending order of time, whatever
    order they were sent in. *)
Theorem X2_fetch_returns_rows_by_time
  (env : Env) (w : World) (symbol : string) (granularity limit : Z)
  (resp : Response) (rows : list (list Qc)) :
  http_get env (candles_request env w symbol granularity limit) = inr resp ->
  json resp = Some (Py.Rows rows) ->
  rows <> [] ->
  Forall candle_row_ok rows ->
  exists indexer,
    Permutation indexer (seq 0 (length rows))
    /\ ascending rows indexer
    /\ snd (Main.get_coinbase_candles symbol granularity limit env w)
       = inr (candles_taken rows indexer).
Proof.
  intros Hr Hj Hne Hok.
  assert (Hlen6 : Forall (fun r => length r = 6%nat) rows)
    by (eapply Forall_impl; [|exact Hok]; now intros r [H _]).
  set (ts := map (fun r => Some (nth 0 r 0%Qc)) rows).
  set (indexer := argsort ts_leb None ts).
  assert (Hperm : Permutation indexer (seq 0 (length rows))).
  { unfold indexer. rewrite argsort_perm. unfold ts. now rewrite length_map. }
  assert (Hidx : Forall (fun i => (i < length rows)%nat) indexer).
  { apply Forall_forall. intros i Hi.
    apply (Permutation_in _ Hperm) in Hi. apply in_seq in Hi. lia. }
  exists indexer. split; [exact Hperm|]. split.
  - unfold ascending.
    apply StronglySorted_weaken
      with (R := fun i j => ts_leb (nth i ts None) (nth j ts None) = true).
    + intros i j Hi Hj' H. rewrite Forall_forall in Hidx.
      pose proof (Hidx _ Hi) as Hi'. pose proof (Hidx _ Hj') as Hj''.
      unfold ts in H.
      rewrite !(nth_indep _ None ((fun r => Some (nth 0 r 0%Qc)) [])) in H
        by (now rewrite length_map).
      rewrite !(map_nth (fun r => Some (nth 0 r 0%Qc))) in H.
      now apply ts_leb_Some in H.
    + apply argsort_sorted; [exact ts_leb_total | exact ts_leb_trans].
  - unfold Main.get_coinbase_candles, candles_request, bind, now, requests_get, lift in *.
    cbn [clock_reads fs http_log chat_log fst snd] in *.
    rewrite Hr. unfold response_json. rewrite Hj. cbn [Py.ok].
    destruct rows as [|r rows']; [contradiction|].
    rewrite (@frame_of_rows r rows' (width_six Hne Hlen6)). cbn [Py.ok].
    change (Py.rbind (getitem _ "time") to_datetime)
      with (to_datetime (Float64 (map (fun r => padded_cell r 0) (r :: rows')))).
    unfold to_datetime. rewrite (to_instants_rows Hok). cbn [Py.rbind Py.ok].
    fold ts.
    change (sort_values (setitem _ "time" (Datetime64 ts)) "time")
      with (Py.ok (A := DataFrame)
              [ ("time", Datetime64 (take None indexer ts));
                ("low", Float64 (take NaN indexer (map (fun r => padded_cell r 1) (r :: rows'))));
                ("high", Float64 (take NaN indexer (map (fun r => padded_cell r 2) (r :: rows'))));
                ("open", Float64 (take NaN indexer (map (fun r => padded_cell r 3) (r :: rows'))));
                ("close", Float64 (take NaN indexer (map (fun r => padded_cell r 4) (r :: rows'))));
                ("volume", Float64 (take NaN indexer (map (fun r => padded_cell r 5) (r :: rows')))) ]).
    cbn [Py.ok snd ret]. unfold candles_taken. f_equal.
    unfold ts. rewrite (@take_times (r :: rows') indexer Hidx).
    rewrite !(fun j Hj => @take_padded (r :: rows') indexer j Hj Hlen6 Hidx) by lia.
    reflexivity.
Qed.

Lemma candle_rows_ok_by_evaluation (rows : list (list Qc)) :
  forallb (fun r => (length r =? 6)%nat && in_ns_bounds (nth 0 r 0%Qc)) rows = true ->
  Forall candle_row_ok rows.
Proof.
  intro H. apply Forall_forall. intros r Hr.
  apply (proj1 (forallb_forall _ _) H) in Hr.
  apply andb_true_iff in Hr as [Hlen Hb]. split; [now apply Nat.eqb_eq | exact Hb].
Qed.

Lemma X2_fetch_returns_rows_by_time_witness :
  http_get Samples.env_ok
    (candles_request Samples.env_ok Samples.world_with_page
       Main.symbol Main.granularity Main.limit)
  = inr {| status_code := 200; json := Some (Py.Rows Samples.zigzag_rows) |}
  /\ Samples.zigzag_rows <> []
  /\ Forall candle_row_ok Samples.zigzag_rows
  /\ exists indexer,
       Permutation indexer (seq 0 (length Samples.zigzag_rows))
       /\ ascending Samples.zigzag_rows indexer
       /\ snd (Main.get_coinbase_candles Main.symbol Main.granularity Main.limit
                 Samples.env_ok Samples.world_with_page)
          = inr (candles_taken Samples.zigzag_rows indexer).
Proof.
  assert (Hne : Samples.zigzag_rows <> []) by (vm_compute; discriminate).
  assert (Hok : Forall candle_row_ok Samples.zigzag_rows)
    by (apply candle_rows_ok_by_evaluation; vm_compute; reflexivity).
  split; [reflexivity|]. split; [exact Hne|]. split; [exact Hok|].
  exact (@X2_fetch_returns_rows_by_time Samples.env_ok Samples.world_with_page
           Main.symbol Main.granularity Main.limit
           {| status_code := 200; json := Some (Py.Rows Samples.zigzag_rows) |}
           Samples.zigzag_rows eq_refl eq_refl Hne Hok).
Defined.

Lemma to_instants_length (xs : list float) (ts : list Timestamp) :
  to_instants xs = inr ts -> length ts = length xs.
Proof.
  revert ts. induction xs as [|x xs IH]; intros ts H; simpl in H.
  - now inversion H.
  - destruct x as [| | |q]; try discriminate.
    + destruct (to_instants xs) as [e|ts']; [discriminate|].
      inversion H; subst. simpl. f_equal. now apply IH.
    + destruct (in_ns_bounds q); [|discriminate].
      destruct (to_instants xs) as [e|ts']; [discriminate|].
      inversion H; subst. simpl. f_equal. now apply IH.
Qed.



End FetchMore.

(* ================================================================= *)
(** ** The page of a run that succeeds *)

Section PageMore.

Import Pandas Spec Props Runtime.

Lemma analyze_outcome (env : Env) (w : World) (df : DataFrame) (prompt : string) :
  snd (Main.analyze_with_chatgpt df prompt env w)
  = match resolved_key env with
    | None => inl Py.OpenAIError
    | Some key =>
        top_text (chat_create env key
                    (chat_request env prompt (to_dict_records (tail 100 df))))
    end.
Proof.
  unfold Main.analyze_with_chatgpt, Main.API_KEY, bind, os_getenv, OpenAI,
    str_of_records, chat_completions_create, resolved_key, chat_request, top_text.
  change ("gpt-" ++ Main.gpt_version)%string with "gpt-5".
  destruct (getenv env "OPEN_API_KEY") as [key|].
  - destruct (chat_create env key _) as [e|completion]; [reflexivity|].
    destruct (choices completion); reflexivity.
  - destruct (getenv env "OPENAI_API_KEY") as [key|]; [|reflexivity].
    destruct (chat_create env key _) as [e|completion]; [reflexivity|].
    destruct (choices completion); reflexivity.
Qed.


(** The outcome of [main], by the outcomes of its three steps. *)
Lemma main_outcome (env : Env) (w : World) :
  snd (Main.main Main.symbol Main.granularity Main.limit env w)
  = match snd (Main.get_coinbase_candles Main.symbol Main.granularity Main.limit env w) with
    | inl e => inl e
    | inr candles =>
        match Main.add_indicators candles with
        | inl e => inl e
        | inr out =>
            match resolved_key env with
            | None => inl Py.OpenAIError
            | Some key =>
                match top_text (chat_create env key (chat_request_for env out)) with
                | inl e => inl e
                | inr analysis => inr (message_of env w analysis)
                end
            end
        end
    end.
Proof.
  destruct (fetch_effects env w Main.symbol Main.granularity Main.limit)
    as [_ [_ [_ [_ [Hclock _]]]]].
  unfold Main.main. unfold bind at 1.
  destruct (Main.get_coinbase_candles Main.symbol Main.granularity Main.limit env w)
    as [w1 [e|candles]]; cbn [fst snd] in *; [reflexivity|].
  unfold bind at 1, lift.
  destruct (Main.add_indicators candles) as [e|out]; [reflexivity|].
  pose proof (analyze_outcome env w1 out Main.PROMPT) as Hout.
  destruct (analyze_effects env w1 out Main.PROMPT) as [_ [Hreads _]].
  unfold bind at 1.
  destruct (Main.analyze_with_chatgpt out Main.PROMPT env w1) as [w2 [e|analysis]];
    cbn [fst snd] in *.
  - unfold chat_request_for.
    destruct (resolved_key env); [rewrite <- Hout; reflexivity | now inversion Hout].
  - unfold chat_request_for. destruct (resolved_key env) as [key|]; [|discriminate].
    rewrite <- Hout. unfold bind, now, strftime, ret, message_of. cbn [snd].
    now rewrite Hreads, Hclock.
Qed.



End PageMore.

(* ================================================================= *)
(** ** src/resistance_support.py against main.py *)

Section TwoScripts.

Import Pandas Spec Props Runtime.

Lemma add_indicators_same (df : DataFrame) :
  ResistanceSupport.add_indicators df = Main.add_indicators df.
Proof.
  unfold Main.add_indicators, ResistanceSupport.add_indicators.
  unfold Main.close_of, ResistanceSupport.close_of.
  unfold Main.short_ema, Main.long_ema, Main.rsi_vars. cbn [Main.rsi].
  reflexivity.
Qed.

Lemma environ_services (d : ResistanceSupport.DotEnv) (env : Env) :
  clock (ResistanceSupport.environ d env) = clock env
  /\ strftime_local (ResistanceSupport.environ d env) = strftime_local env
  /\ http_get (ResistanceSupport.environ d env) = http_get env
  /\ chat_create (ResistanceSupport.environ d env) = chat_create env
  /\ str_records (ResistanceSupport.environ d env) = str_records env.
Proof.
  unfold ResistanceSupport.environ. destruct (ResistanceSupport.in_cwd d); now repeat split.
Qed.

(** The body of [get_resistance_support] against [main], in one
    environment. *)
Lemma body_against_main (env : Env) (w : World) :
  let run :=
    (candles <- Main.get_coinbase_candles Main.symbol Main.granularity Main.limit ;;
     candles <- lift (Main.add_indicators candles) ;;
     analysis <- Main.analyze_with_chatgpt candles Main.PROMPT ;;
     ret (str_opt analysis))%py env w in
  Main.main Main.symbol Main.granularity Main.limit env w
  = match snd run with
    | inl e => (fst run, inl e)
    | inr message =>
        ({| fs := fs (fst run); clock_reads := S (clock_reads (fst run));
            http_log := http_log (fst run); chat_log := chat_log (fst run) |},
         inr (message ++ nl ++ Main.rule ++ nl ++ " End analysis at "
              ++ strftime_local env (clock env (clock_reads (fst run))))%string)
    end.
Proof.
  cbv zeta. unfold Main.main, bind, lift, now, strftime, ret.
  destruct (Main.get_coinbase_candles Main.symbol Main.granularity Main.limit env w)
    as [w1 [e|candles]]; [reflexivity|].
  destruct (Main.add_indicators candles) as [e|out]; [reflexivity|].
  destruct (Main.analyze_with_chatgpt out Main.PROMPT env w1) as [w2 [e|analysis]];
    reflexivity.
Qed.

(** X13.  [get_resistance_support] is [main] without its last two lines:
    in the environment left by the loading of the key it fails where [main]
    fails, with the same error, and otherwise returns the analysis that
    [main] returns followed by a rule and a time stamp; it sends the same
    requests, and it touches no file.  The variables of a .env file are
    used only when the file is in the working directory, and only for names
    the process has not set. *)
Theorem X13_resistance_support_is_main_without_stamp
  (d : ResistanceSupport.DotEnv) (env : Env) (w : World) :
  let loaded := ResistanceSupport.environ d env in
  let run := ResistanceSupport.get_resistance_support d ResistanceSupport.symbol
               ResistanceSupport.granularity ResistanceSupport.limit env w in
  let ref := Main.main Main.symbol Main.granularity Main.limit loaded w in
  snd ref
  = match snd run with
    | inl e => inl e
    | inr message =>
        inr (message ++ nl ++ Main.rule ++ nl ++ " End analysis at "
             ++ strftime_local env (clock env (clock_reads (fst run))))%string
    end
  /\ http_log (fst run) = http_log (fst ref)
  /\ chat_log (fst run) = chat_log (fst ref)
  /\ fs (fst run) = fs w
  /\ (forall name,
        getenv loaded name
        = match getenv env name with
          | Some v => Some v
          | None =>
              if ResistanceSupport.in_cwd d
              then read_file (ResistanceSupport.variables d) name
              else None
          end).
Proof.
  cbv zeta.
  destruct (environ_services d env) as [Hclock [Hstr _]].
  assert (Hgetenv : forall name,
             getenv (ResistanceSupport.environ d env) name
             = match getenv env name with
               | Some v => Some v
               | None =>
                   if ResistanceSupport.in_cwd d
                   then read_file (ResistanceSupport.variables d) name
                   else None
               end).
  { intro name. unfold ResistanceSupport.environ.
    destruct (ResistanceSupport.in_cwd d); simpl; [reflexivity|].
    now destruct (getenv env name). }
  pose proof (keeps_fs_main Main.symbol Main.granularity Main.limit
                (ResistanceSupport.environ d env) w) as Hfs.
  pose proof (body_against_main (ResistanceSupport.environ d env) w) as Hbody.
  cbv zeta in Hbody.
  unfold ResistanceSupport.get_resistance_support, ResistanceSupport.imported.
  change ResistanceSupport.get_coinbase_candles with Main.get_coinbase_candles.
  change ResistanceSupport.analyze_with_chatgpt with Main.analyze_with_chatgpt.
  change ResistanceSupport.symbol with Main.symbol.
  change ResistanceSupport.granularity with Main.granularity.
  change ResistanceSupport.limit with Main.limit.
  change ResistanceSupport.PROMPT with Main.PROMPT.
  assert (Hsame : forall candles,
             lift (ResistanceSupport.add_indicators candles)
             = lift (Main.add_indicators candles))
    by (intro; now rewrite add_indicators_same).
  match goal with
  | |- context [bind ?m ?k] =>
      assert (Hk : bind m k (ResistanceSupport.environ d env) w
                   = (candles <- Main.get_coinbase_candles Main.symbol Main.granularity
                                   Main.limit ;;
                      candles <- lift (Main.add_indicators candles) ;;
                      analysis <- Main.analyze_with_chatgpt candles Main.PROMPT ;;
                      ret (str_opt analysis))%py (ResistanceSupport.environ d env) w)
  end.
  { unfold bind at 1. unfold bind at 3.
    destruct (Main.get_coinbase_candles Main.symbol Main.granularity Main.limit
                (ResistanceSupport.environ d env) w) as [w1 [e|candles]]; [reflexivity|].
    unfold bind at 1. unfold bind at 3. now rewrite Hsame. }
  rewrite Hk. clear Hk.
  revert Hfs Hbody.
  generalize ((candles <- Main.get_coinbase_candles Main.symbol Main.granularity Main.limit ;;
               candles <- lift (Main.add_indicators candles) ;;
               analysis <- Main.analyze_with_chatgpt candles Main.PROMPT ;;
               ret (str_opt analysis))%py (ResistanceSupport.environ d env) w).
  intros [w1 [e|message]] Hfs Hbody; cbn [fst snd] in *; rewrite Hbody in *;
    cbn [fst snd fs http_log chat_log] in *.
  - repeat split; try assumption.
  - rewrite Hclock, Hstr. repeat split; try assumption.
Qed.

End TwoScripts.


(* ================================================================= *)
(** ** Sums and differences within the range of float64 *)

Section Ranges.

Import Pandas Spec Props.


Lemma price_cap_nonneg : (0 <= price_cap)%Qc.
Proof. unfold Qcle, Qle. vm_compute. discriminate. Qed.

















(** *** Averages that do not underflow *)









End Ranges.

(* ================================================================= *)
(** ** The windowed indicators, for closes in the range of prices *)

Section WindowedIndicators.

Import Pandas Spec Props.

















End WindowedIndicators.

(* ================================================================= *)
(** ** The run, step by step *)

Section RunInGeneral.

Import Pandas Spec Props Runtime.

(** The script after [main]: nothing is touched unless [main] returns,
    and then the page is opened, which empties it, and written. *)
Lemma script_after_main (env : Env) (w : World) :
  match snd (Main.main Main.symbol Main.granularity Main.limit env w) with
  | inl e => snd (Main.script env w) = inl e /\ fs (fst (Main.script env w)) = fs w
  | inr analysis =>
      if open_fails env "index.html"
      then snd (Main.script env w) = inl Py.OSError /\ fs (fst (Main.script env w)) = fs w
      else
        match write_fails env "index.html" (Main.content analysis) with
        | None =>
            snd (Main.script env w) = inr tt
            /\ read_file (fs (fst (Main.script env w))) "index.html"
               = Some (Main.content analysis)
        | Some n =>
            snd (Main.script env w) = inl Py.OSError
            /\ read_file (fs (fst (Main.script env w))) "index.html"
               = Some (substring 0 n (Main.content analysis))
        end
  end.
Proof.
  unfold Main.script, bind.
  pose proof (keeps_fs_main Main.symbol Main.granularity Main.limit env w) as Hfs.
  destruct (Main.main Main.symbol Main.granularity Main.limit env w) as [w1 [e|analysis]];
    cbn [fst snd] in *; [now split|].
  unfold open_w.
  destruct (open_fails env "index.html"); cbn [fst snd]; [now split|].
  unfold write_close.
  destruct (write_fails env "index.html" (Main.content analysis)) as [n|];
    cbn [fst snd fs]; split; try reflexivity; apply read_write_file.
Qed.



(** X11.  When the exchange returns candles, a key that is not empty is
    found, the chat service answers with at least one choice and the disk
    does not fail, the run completes and index.html holds the page whose
    slot is filled with the text of the first choice, a rule, and the time
    stamp of the second reading of the clock.  A first choice without text
    shows as [None]. *)
Theorem X11_page_of_a_successful_run
  (env : Env) (w : World) (candles out : DataFrame) (key : string)
  (completion : Completion) (top : Choice) (rest : list Choice) :
  snd (Main.get_coinbase_candles Main.symbol Main.granularity Main.limit env w)
  = inr candles ->
  Main.add_indicators candles = Py.ok out ->
  resolved_key env = Some key ->
  key <> ""%string ->
  chat_create env key (chat_request_for env out) = inr completion ->
  choices completion = top :: rest ->
  open_fails env "index.html" = false ->
  write_fails env "index.html" (Main.content (message_of env w (message_content top))) = None ->
  snd (Main.script env w) = inr tt
  /\ read_file (fs (fst (Main.script env w))) "index.html"
     = Some (Main.content (message_of env w (message_content top)))
  /\ message_of env w None
     = ("None" ++ nl ++ Main.rule ++ nl ++ " End analysis at "
        ++ strftime_local env (clock env (S (clock_reads w))))%string.
Proof.
  intros Hfetch Hind Hkey _ Hchat Htop Hopen Hwrite.
  pose proof (main_outcome env w) as Hmain.
  rewrite Hfetch, Hind in Hmain. unfold Py.ok in Hmain.
  rewrite Hkey, Hchat in Hmain. unfold top_text in Hmain.
  rewrite Htop in Hmain.
  pose proof (script_after_main env w) as Hscript.
  rewrite Hmain, Hopen, Hwrite in Hscript.
  destruct Hscript as [Hdone Hpage]. now repeat split.
Qed.

Lemma X11_page_of_a_successful_run_witness :
  snd (Main.script Samples.env_ok Samples.world_with_page) = inr tt
  /\ read_file (fs (fst (Main.script Samples.env_ok Samples.world_with_page))) "index.html"
     = Some (Main.content (message_of Samples.env_ok Samples.world_with_page
                             (Some Samples.summary_text)))
  /\ message_of Samples.env_ok Samples.world_with_page None
     = ("None" ++ nl ++ Main.rule ++ nl ++ " End analysis at "
        ++ strftime_local Samples.env_ok
             (clock Samples.env_ok (S (clock_reads Samples.world_with_page))))%string.
Proof.
  apply (@X11_page_of_a_successful_run Samples.env_ok Samples.world_with_page
           fetched_zigzag enriched_zigzag "sk-test"
           {| choices := [ {| message_content := Some Samples.summary_text |} ] |}
           {| message_content := Some Samples.summary_text |} []);
    try discriminate; vm_compute; reflexivity.
Defined.

(** X1.  A call of [get_coinbase_candles] whose window fits the dates of
    Python reads the clock once and sends exactly one GET request, whether
    it then fails or not: to the candles URL of the symbol, for the window
    that ends at the clock reading and starts [granularity * limit] seconds
    earlier.  It sends no chat request and touches no file. *)
Theorem X1_fetch_sends_one_request
  (env : Env) (w : World) (symbol : string) (granularity limit : Z) :
  window_fits env w granularity limit ->
  let run := Main.get_coinbase_candles symbol granularity limit env w in
  let rq := candles_request env w symbol granularity limit in
  http_log (fst run) = http_log w ++ [rq]
  /\ url rq = ("https://api.exchange.coinbase.com/products/" ++ symbol ++ "/candles")%string
  /\ end_param rq = clock env (clock_reads w)
  /\ (end_param rq - start_param rq = granularity * limit)%Z
  /\ (datetime_min <= start_param rq <= datetime_max)%Z
  /\ clock_reads (fst run) = S (clock_reads w)
  /\ chat_log (fst run) = chat_log w
  /\ fs (fst run) = fs w.
Proof.
  intros [_ Hstart] run rq. subst run rq.
  destruct (fetch_effects env w symbol granularity limit)
    as [H1 [H2 [H3 [H4 [H5 [H6 H7]]]]]].
  split; [exact H1|]. split; [exact H2|]. split; [exact H3|]. split; [exact H4|].
  split; [exact Hstart|]. split; [exact H5|]. split; [exact H6 | exact H7].
Qed.

Lemma X1_fetch_sends_one_request_witness :
  let run := Main.get_coinbase_candles Main.symbol Main.granularity Main.limit
               Samples.env_ok Samples.world_with_page in
  let rq := candles_request Samples.env_ok Samples.world_with_page
              Main.symbol Main.granularity Main.limit in
  http_log (fst run) = http_log Samples.world_with_page ++ [rq]
  /\ url rq = "https://api.exchange.coinbase.com/products/SOL-USD/candles"%string
  /\ end_param rq = 1700079200%Z
  /\ (end_param rq - start_param rq = 720000)%Z
  /\ (datetime_min <= start_param rq <= datetime_max)%Z
  /\ clock_reads (fst run) = 1%nat
  /\ chat_log (fst run) = chat_log Samples.world_with_page
  /\ fs (fst run) = fs Samples.world_with_page.
Proof.
  apply (@X1_fetch_sends_one_request Samples.env_ok Samples.world_with_page
           Main.symbol Main.granularity Main.limit).
  unfold window_fits. vm_compute. repeat split; discriminate.
Defined.

End RunInGeneral.

(* ================================================================= *)
(** ** The records of the summary request *)

Section SummarizerRecords.

Import Pandas Spec Props Runtime.

Lemma to_dict_records_nth (df : DataFrame) (i : nat) :
  (i < nrows df)%nat -> nth i (to_dict_records df) [] = flat_record df i.
Proof.
  intro Hi. unfold to_dict_records, flat_record.
  set (f := fun j : nat => map (fun '(k, c) => (k, cell_at c j)) df).
  rewrite (nth_indep (map f (seq 0 (nrows df))) [] (f 0%nat))
    by (now rewrite length_map, length_seq).
  rewrite (map_nth f), seq_nth by assumption. subst f. simpl.
  apply map_ext. now intros [k c].
Qed.

(** C9.  For a frame whose columns all hold the same number of cells, one
    call of [analyze_with_chatgpt] takes the last 100 rows (all rows when
    there are fewer), turns each into a flat record that pairs every column
    label with the cell of that row, and sends at most one request: none
    when no API key can be found, else exactly one, with the prompt as
    system message and the label followed by the rendered records as the
    single user message.  What it returns is the text of the first choice
    of the completion, untouched. *)
Theorem C9_one_request_last_100_rows
  (env : Env) (w : World) (df : DataFrame) (prompt : string) :
  Forall (fun kc => col_len (snd kc) = nrows df) df ->
  let run := Main.analyze_with_chatgpt df prompt env w in
  exists sample,
    length sample = Nat.min (nrows df) 100
    /\ (forall k, (k < length sample)%nat ->
          nth k sample [] = flat_record df (nrows df - 100 + k))
    /\ messages (chat_request env prompt sample)
       = [ {| role := "system"; content := prompt |};
           {| role := "user";
              content := (Main.data_label ++ str_records env sample)%string |} ]
    /\ match resolved_key env with
       | None => snd run = inl Py.OpenAIError /\ chat_log (fst run) = chat_log w
       | Some key =>
           key <> ""%string ->
           chat_log (fst run) = chat_log w ++ [chat_request env prompt sample]
           /\ snd run
              = match chat_create env key (chat_request env prompt sample) with
                | inl e => inl e
                | inr completion =>
                    match choices completion with
                    | [] => inl Py.IndexError
                    | top :: _ => inr (message_content top)
                    end
                end
       end.
Proof.
  intros Hall run. subst run.
  exists (skipn (nrows df - 100) (to_dict_records df)).
  assert (Hlen : length (skipn (nrows df - 100) (to_dict_records df))
                 = Nat.min (nrows df) 100)
    by (rewrite length_skipn, to_dict_records_length; lia).
  split; [exact Hlen|]. split; [|split; [reflexivity|]].
  - intros k Hk.
    change (k < length (skipn (nrows df - 100) (to_dict_records df)))%nat in Hk.
    rewrite Hlen in Hk. rewrite nth_skipn.
    apply to_dict_records_nth. lia.
  - unfold Main.analyze_with_chatgpt, Main.API_KEY, bind, os_getenv, OpenAI,
      str_of_records, chat_completions_create, resolved_key, chat_request.
    rewrite (to_dict_records_tail 100 Hall).
    destruct (getenv env "OPEN_API_KEY") as [key|].
    + intros _. change ("gpt-" ++ Main.gpt_version)%string with "gpt-5".
      destruct (chat_create env key _) as [e|completion]; [now split|].
      destruct (choices completion); now split.
    + destruct (getenv env "OPENAI_API_KEY") as [key|].
      * intros _. change ("gpt-" ++ Main.gpt_version)%string with "gpt-5".
        destruct (chat_create env key _) as [e|completion]; [now split|].
        destruct (choices completion); now split.
      * split; reflexivity.
Qed.

Lemma C9_one_request_last_100_rows_witness :
  nrows enriched_ramp = 120%nat
  /\ columns enriched_ramp
     = ["time"; "low"; "high"; "open"; "close"; "volume";
        "SMA20"; "EMA20"; "RSI"; "MACD"; "Signal"]
  /\ exists sample,
       length sample = 100%nat
       /\ nth 0 sample [] = flat_record enriched_ramp 20
       /\ nth 99 sample [] = flat_record enriched_ramp 119
       /\ nth 4 (nth 0 sample []) (""%string, CFloat NaN) = ("close"%string, CFloat (F.of_Z 21))
       /\ chat_log (fst (Main.analyze_with_chatgpt enriched_ramp Main.PROMPT
                           Samples.env_ok Samples.world_with_page))
          = [chat_request Samples.env_ok Main.PROMPT sample]
       /\ snd (Main.analyze_with_chatgpt enriched_ramp Main.PROMPT
                 Samples.env_ok Samples.world_with_page)
          = inr (Some Samples.summary_text).
Proof.
  assert (Hrows : nrows enriched_ramp = 120%nat) by (vm_compute; reflexivity).
  split; [exact Hrows|]. split; [vm_compute; reflexivity|].
  destruct (@C9_one_request_last_100_rows Samples.env_ok Samples.world_with_page
              enriched_ramp Main.PROMPT)
    as [sample [Hlen [Hrec [_ Hreq]]]].
  - repeat (constructor; [vm_compute; reflexivity|]). constructor.
  - rewrite Hrows in Hlen, Hrec. simpl in Hlen.
    exists sample. split; [exact Hlen|].
    split; [apply (Hrec 0%nat); lia|].
    split; [apply (Hrec 99%nat); lia|].
    split; [rewrite (Hrec 0%nat) by lia; vm_compute; reflexivity|].
    change (resolved_key Samples.env_ok) with (Some "sk-test"%string) in Hreq.
    destruct Hreq as [Hlog Hout]; [discriminate|].
    split; [exact Hlog | exact Hout].
Defined.

End SummarizerRecords.
